(** * NeMo Guardrails hook for the LiteLLM proxy: a shallow embedding

    The development follows two source files:

    - [litellm/proxy/guardrails/guardrail_hooks/nemo_guardrails/nemo_guardrails.py]
      (class [NemoGuardrailsGuardrail]: configuration resolver, remote
      classification client, blocking decision classifier, pre-call and
      post-call hooks);
    - [litellm/proxy/nemo_config/actions.py] (the local detectors
      [is_harmful_content] and [violates_policy]).

    Python values that come from JSON are modelled by the type [json];
    a Python [dict] is a [gmap string json].  Python's [str] is modelled
    by [string] restricted to ASCII text: [lower] and [strip] are
    [str.lower] and [str.strip] on ASCII characters, other bytes are left
    alone.  JSON numbers are integers.  Exceptions are values of type
    [exn]; a computation that may raise returns a [result]. *)

From stdpp Require Import base option list strings gmap.
From Stdlib Require Import ZArith Ascii.
From Stdlib Require String.

Set Warnings "-register-all".

(** ** Python values *)

Inductive json : Type :=
| JNull
| JBool (b : bool)
| JNum (n : Z)
| JStr (s : string)
| JList (l : list json)
| JDict (d : gmap string json).

(** Classes of [requests.exceptions] raised by the HTTP client. *)
Inductive requests_exc : Type :=
| Timeout
| ConnectionError
| HTTPError
| JSONDecodeError
| RequestException.

Inductive exn : Type :=
| KeyError
| IndexError
| TypeError
| AttributeError
| ValueError (msg : string)
| Requests (cls : requests_exc) (msg : string)
| GuardrailRaisedException (message guardrail_name : string).

Inductive result (A : Type) : Type :=
| Ok (a : A)
| Raise (e : exn).
Arguments Ok {A} a.
Arguments Raise {A} e.

#[global] Instance result_ret : MRet result := @Ok.
#[global] Instance result_bind : MBind result := λ A B f m,
  match m with Ok a => f a | Raise e => Raise e end.

(** ** Python strings (ASCII) *)

Module Str.

Definition is_upper (c : ascii) : bool :=
  let n := N_of_ascii c in ((65 <=? n) && (n <=? 90))%N.

Definition lower_char (c : ascii) : ascii :=
  if is_upper c then ascii_of_N (N_of_ascii c + 32) else c.

(** [s.lower()] *)
Fixpoint lower (s : string) : string :=
  match s with
  | EmptyString => EmptyString
  | String c s' => String (lower_char c) (lower s')
  end.

(** [sub in s] for two strings. *)
Fixpoint contains (sub s : string) : bool :=
  String.prefix sub s ||
  match s with
  | EmptyString => false
  | String _ s' => contains sub s'
  end.


(** [c.isspace()] on the ASCII range: tab, line feed, vertical tab, form
    feed, carriage return, the four separators 28..31 and the space.
    Python's [isspace] also holds of characters beyond ASCII (U+0085,
    U+00A0, ...): a statement whose truth depends on the blank test of
    [strip] is made of ASCII text ([isascii]). *)
Definition isspace (c : ascii) : bool :=
  let n := N_of_ascii c in
  (((9 <=? n) && (n <=? 13)) || ((28 <=? n) && (n <=? 31)) || (n =? 32))%N.

Fixpoint lstrip (s : string) : string :=
  match s with
  | EmptyString => EmptyString
  | String c s' => if isspace c then lstrip s' else s
  end.

Definition rstrip (s : string) : string := String.rev (lstrip (String.rev s)).

(** [s.strip()] *)
Definition strip (s : string) : string := rstrip (lstrip s).

(** [s[:100]] *)
Definition prefix100 (s : string) : string := String.substring 0 100 s.

End Str.

(** ** Operations on Python values *)

Module Py.

(** [bool(v)]: the truth value Python gives to [v] in [if v], [not v]
    and [v or w]. *)
Definition truthy (v : json) : bool :=
  match v with
  | JNull => false
  | JBool b => b
  | JNum n => negb (n =? 0)%Z
  | JStr s => negb (String.eqb s "")
  | JList l => match l with [] => false | _ => true end
  | JDict d => negb (size d =? 0)%nat
  end.

(** [v or w] *)
Definition or (v w : json) : json := if truthy v then v else w.

(** [v[key]] for a string key. *)
Definition getitem (v : json) (key : string) : result json :=
  match v with
  | JDict d => match d !! key with Some x => Ok x | None => Raise KeyError end
  | _ => Raise TypeError
  end.

(** [v[0]].  A dict built from JSON has string keys only, so the integer
    key is never found. *)
Definition getitem0 (v : json) : result json :=
  match v with
  | JList l => match l with x :: _ => Ok x | [] => Raise IndexError end
  | JStr s =>
      match s with
      | String c _ => Ok (JStr (String c ""))
      | EmptyString => Raise IndexError
      end
  | JDict _ => Raise KeyError
  | _ => Raise TypeError
  end.

(** [v.get(key, default)]: only a dict has [get]. *)
Definition get (v : json) (key : string) (default : json) : result json :=
  match v with
  | JDict d => Ok (match d !! key with Some x => x | None => default end)
  | _ => Raise AttributeError
  end.

Definition is_str (key : string) (v : json) : bool :=
  match v with JStr s => String.eqb s key | _ => false end.

(** [key in v] for a string key: a key of a dict, an element of a list,
    a substring of a string. *)
Definition contains (key : string) (v : json) : result bool :=
  match v with
  | JDict d => Ok (match d !! key with Some _ => true | None => false end)
  | JList l => Ok (existsb (is_str key) l)
  | JStr s => Ok (Str.contains key s)
  | _ => Raise TypeError
  end.

(** [len(v)] *)
Definition len (v : json) : result nat :=
  match v with
  | JDict d => Ok (size d)
  | JList l => Ok (length l)
  | JStr s => Ok (String.length s)
  | _ => Raise TypeError
  end.

(** [v[:100]]; a dict is not sliceable ([TypeError] up to Python 3.11,
    [KeyError] from 3.12: the callers catch both alike). *)
Definition slice100 (v : json) : result json :=
  match v with
  | JStr s => Ok (JStr (Str.prefix100 s))
  | JList l => Ok (JList (take 100 l))
  | _ => Raise TypeError
  end.

(** [str(type(e))] *)
Definition type_str (e : exn) : string :=
  match e with
  | KeyError => "<class 'KeyError'>"
  | IndexError => "<class 'IndexError'>"
  | TypeError => "<class 'TypeError'>"
  | AttributeError => "<class 'AttributeError'>"
  | ValueError _ => "<class 'ValueError'>"
  | Requests Timeout _ => "<class 'requests.exceptions.Timeout'>"
  | Requests ConnectionError _ => "<class 'requests.exceptions.ConnectionError'>"
  | Requests HTTPError _ => "<class 'requests.exceptions.HTTPError'>"
  | Requests JSONDecodeError _ => "<class 'requests.exceptions.JSONDecodeError'>"
  | Requests RequestException _ => "<class 'requests.exceptions.RequestException'>"
  | GuardrailRaisedException _ _ => "<class 'litellm.exceptions.GuardrailRaisedException'>"
  end.

End Py.

(** ** Blocking decision classifier ([nemo_guardrails.py]) *)

(** [policy_mapping] of [_extract_policy_name], in the order of the dict
    literal (Python dicts iterate in insertion order). *)
Definition policy_mapping : list (string * string) :=
  [
   ("I'm sorry, I can't respond to that request. I'm designed to follow specific guidelines and I cannot ignore or change my instructions.",
    "Jailbreak Prevention");
   ("I'm sorry, I cannot assist with that request. It goes against my guidelines to provide information that could be harmful or illegal.",
    "Harmful Content Prevention");
   ("I apologize, but I cannot provide that response as it violates content safety policies.",
    "Content Safety Policy");
   ("I can't help with requests for personal or sensitive information such as social security numbers, passport numbers, bank or credit card details.",
    "PII Protection");
   ("I can't assist with attempts to bypass safety or moderation rules. Please ask a different question.",
    "Safety Bypass Prevention");
   ("I can't assist with explicit sexual content, pornography, or any sexual content involving minors or illegal situations.",
    "Sexual Content Prevention");
   ("I'm sorry you're feeling this way. If you're in immediate danger, please contact your local emergency services.",
    "Self-Harm Prevention");
   ("I cannot provide information about causing harm to others. Is there something else I can help you with?",
    "Violence Prevention");
   ("I cannot assist with illegal activities. I'm here to help with legitimate and legal inquiries.",
    "Illegal Activity Prevention");
   ("I'm designed to follow safety guidelines and cannot bypass my instructions. How else can I assist you?",
    "Instruction Bypass Prevention");
   ("Please don't share sensitive personal information like passwords, credit cards, or social security numbers.",
    "Sensitive Information Protection");
   ("I'm here to have respectful conversations. Let's keep things constructive.",
    "Toxicity Prevention");
   ("I cannot create malicious code or security exploits. I can help with legitimate programming questions instead.",
    "Malicious Code Prevention");
   ("I understand you may be frustrated. How can I help you in a constructive way?",
    "Respectful Interaction Policy");
   ("I'm not able to provide medical diagnoses or treatment advice. Please consult a medical professional.",
    "Medical Advice Policy prevention");
   ("I can't provide legal advice or instructions. Please consult a qualified legal professional.",
    "Legal Advice Policy Prevention")
  ].


Definition legacy_phrases : list string :=
  [
   "I'm sorry, I can't respond to that";
   "I cannot assist with that";
   "against my guidelines";
   "inappropriate"
  ].


(** [blocking_phrases] of [_is_message_blocked]. *)
Definition blocking_phrases : list string :=
  [
   "I'm sorry, I can't respond to that request. I'm designed to follow specific guidelines and I cannot ignore or change my instructions.";
   "I'm sorry, I cannot assist with that request. It goes against my guidelines to provide information that could be harmful or illegal.";
   "I apologize, but I cannot provide that response as it violates content safety policies.";
   "I can't help with requests for personal or sensitive information such as social security numbers, passport numbers, bank or credit card details.";
   "I can't assist with attempts to bypass safety or moderation rules. Please ask a different question.";
   "I can't assist with explicit sexual content, pornography, or any sexual content involving minors or illegal situations.";
   "I'm sorry you're feeling this way. If you're in immediate danger, please contact your local emergency services. If you need someone to talk to, consider reaching out to a crisis hotline or a trusted person in your life.";
   "I'm sorry, I can't respond to that";
   "I cannot assist with that";
   "against my guidelines";
   "inappropriate";
   "I cannot provide information about causing harm to others. Is there something else I can help you with?";
   "I cannot assist with illegal activities. I'm here to help with legitimate and legal inquiries.";
   "I'm designed to follow safety guidelines and cannot bypass my instructions. How else can I assist you?";
   "Please don't share sensitive personal information like passwords, credit cards, or social security numbers. How else can I help?";
   "I'm here to have respectful conversations. Let's keep things constructive. What can I help you with?";
   "I cannot create malicious code or security exploits. I can help with legitimate programming questions instead.";
   "I understand you may be frustrated. How can I help you in a constructive way?";
   "I'm sorry, I can't respond to that.";
   "I'm not able to provide medical diagnoses or treatment advice. Please consult a medical professional.";
   "I can't provide legal advice or instructions. Please consult a qualified legal professional."
  ].

(** The triple [(is_blocked, reason, policy_name)]; [JNull] is [None]. *)
Definition decision : Type := bool * json * json.

(** The loop [for phrase, policy_name in policy_mapping.items()]. *)
Fixpoint scan_policy_mapping (response_lower : string)
    (table : list (string * string)) : option string :=
  match table with
  | [] => None
  | (phrase, policy_name) :: table' =>
      if Str.contains (Str.lower phrase) response_lower then Some policy_name
      else scan_policy_mapping response_lower table'
  end.

(** The loop [for phrase in legacy_phrases]. *)
Fixpoint scan_legacy_phrases (response_lower : string)
    (phrases : list string) : bool :=
  match phrases with
  | [] => false
  | phrase :: phrases' =>
      if Str.contains (Str.lower phrase) response_lower then true
      else scan_legacy_phrases response_lower phrases'
  end.

(** The metadata lookup at the head of [_extract_policy_name]: [Some v]
    when the function returns [v] from the metadata, [None] when it falls
    through to the phrase tables. *)
Definition policy_from_metadata (api_response : json) : result (option json) :=
  has_metadata ← Py.contains "metadata" api_response;
  if has_metadata : bool then
    metadata ← Py.getitem api_response "metadata";
    has_violated ← Py.contains "violated_policy" metadata;
    if has_violated : bool then
      v ← Py.getitem metadata "violated_policy"; mret (Some v)
    else
      has_name ← Py.contains "policy_name" metadata;
      if has_name : bool then
        v ← Py.getitem metadata "policy_name"; mret (Some v)
      else mret None
  else mret None.

(** The rest of [_extract_policy_name]: the two phrase tables and the
    final default. *)
Definition policy_from_tables (response_text : string) : string :=
  let response_lower := Str.lower response_text in
  match scan_policy_mapping response_lower policy_mapping with
  | Some policy_name => policy_name
  | None =>
      if scan_legacy_phrases response_lower legacy_phrases
      then "Content Policy Violation"
      else "Unknown Policy"
  end.

Definition _extract_policy_name (api_response : json) (response_text : string)
    : result json :=
  from_metadata ← policy_from_metadata api_response;
  match from_metadata with
  | Some v => mret v
  | None => mret (JStr (policy_from_tables response_text))
  end.

(** The loop [for phrase in blocking_phrases] with its early [return]. *)
Fixpoint scan_blocking_phrases (api_response : json) (response_text : string)
    (phrases : list string) : result decision :=
  match phrases with
  | [] => mret (false, JNull, JNull)
  | phrase :: phrases' =>
      if Str.contains (Str.lower phrase) (Str.lower response_text) then
        policy_name ← _extract_policy_name api_response response_text;
        mret (true, JStr ("Blocking phrase detected: " +:+ phrase), policy_name)
      else scan_blocking_phrases api_response response_text phrases'
  end.

(** [api_response["messages"][0]["content"]] *)
Definition messages_0_content (api_response : json) : result json :=
  messages ← Py.getitem api_response "messages";
  first ← Py.getitem0 messages;
  Py.getitem first "content".

Definition _is_message_blocked (api_response : json) : result decision :=
  (* the argument of the logging call on the first line of the body *)
  _ ← messages_0_content api_response;
  if negb (Py.truthy api_response) then
    mret (true, JStr "Empty response from guardrails API", JNull)
  else
    response_text ← messages_0_content api_response;
    if negb (Py.truthy response_text) then
      mret (true, JStr "Empty response from guardrails", JNull)
    else
      match response_text with
      | JStr text =>
          if String.eqb (Str.strip text) "" then
            mret (true, JStr "Empty response from guardrails", JNull)
          else scan_blocking_phrases api_response text blocking_phrases
      | _ => Raise AttributeError (* no [strip] on a value that is not a str *)
      end.

(** ** The guardrail object, the request and the outside world *)

(** An HTTP request issued through [requests]. *)
Inductive request : Type :=
| GetConfigs                                     (* GET /v1/rails/configs *)
| PostChat (config_id : json) (messages : list json). (* POST /v1/chat/completions *)

(** The dict [log_data] built by [_log_guardrail_result]; a key that the
    code adds conditionally is an [option].  [duration_seconds] is a clock
    reading and is not modelled. *)
Record log_data : Type := LogData {
  log_guardrail_name : string;
  log_status : string;
  log_reason : string;
  log_policy_name : option json;          (* "violated_policy" and "policy_name" *)
  log_user_message_preview : option json;
  log_llm_response_preview : option json;
}.

(** The response object of the model call ([hasattr] = [Some]). *)
Record Message : Type := { content : option json }.
Record Choices : Type := { message : option Message }.
Record ModelResponse : Type := { choices : option (list Choices) }.

(** The request dict [data]: the value under its key [messages], whatever
    it is ([None] when the key is absent), and the two entries the host's
    helpers write, the guardrail log and the applied-guardrails header. *)
Record request_data : Type := RequestData {
  data_messages : option json;
  data_guardrail_information : list log_data;
  data_applied_guardrails : list string;
}.

(** Everything a hook can read or change: the attributes of [self], the
    request dict, the response objects (by reference) and the HTTP requests
    issued so far, latest last. *)
Record World : Type := MkWorld {
  guardrail_name : string;          (* self.guardrail_name *)
  _config_id : json;                (* self._config_id *)
  _configs_cache : json;            (* self._configs_cache *)
  data : request_data;
  heap : gmap nat ModelResponse;
  issued : list request;
}.

Definition GUARDRAIL_NAME : string := "nemo_guardrails".

Inductive GuardrailEventHooks : Type := pre_call | post_call.

(** Stateful computations that may raise; the state survives a raise, as
    side effects do in Python. *)
Definition M (A : Type) : Type := World → result A * World.

#[global] Instance M_ret : MRet M := λ A a w, (Ok a, w).
#[global] Instance M_bind : MBind M := λ A B f m w,
  match m w with
  | (Ok a, w') => f a w'
  | (Raise e, w') => (Raise e, w')
  end.

Definition raise {A} (e : exn) : M A := λ w, (Raise e, w).
Definition lift {A} (r : result A) : M A := λ w, (r, w).
Definition get_world : M World := λ w, (Ok w, w).
Definition put_world (w : World) : M unit := λ _, (Ok (), w).

(** [try: body except Exception as e: handler(e)] *)
Definition try_except {A} (body : M A) (handler : exn → M A) : M A := λ w,
  match body w with
  | (Ok a, w') => (Ok a, w')
  | (Raise e, w') => handler e w'
  end.

Definition set_configs_cache (v : json) : M unit := λ w,
  (Ok (), MkWorld (guardrail_name w) (_config_id w) v (data w) (heap w) (issued w)).

Definition set_data (d : request_data) : M unit := λ w,
  (Ok (), MkWorld (guardrail_name w) (_config_id w) (_configs_cache w) d (heap w) (issued w)).

Definition set_heap (h : gmap nat ModelResponse) : M unit := λ w,
  (Ok (), MkWorld (guardrail_name w) (_config_id w) (_configs_cache w) (data w) h (issued w)).

Section Guardrail.

(** The collaborators outside the repository. *)

(** The remote service: the outcome of a request given those issued before
    it, either the decoded JSON body or the exception that [requests.get],
    [requests.post], [raise_for_status] or [response.json] raises. *)
Variable http : list request → request → result json.

(** [CustomGuardrail.should_run_guardrail(...) is True] *)
Variable should_run_guardrail : request_data → GuardrailEventHooks → bool.

(** [should_proceed_based_on_metadata(...) is not False] *)
Variable should_proceed_based_on_metadata : request_data → string → bool.

(** Python's [str] on a value that is not a string, and on an exception. *)
Variable str_value : json → string.
Variable str_exn : exn → string.

(** [f"{v}"] *)
Definition format (v : json) : string :=
  match v with JStr s => s | _ => str_value v end.

Definition send (req : request) : M json := λ w,
  (http (issued w) req,
   MkWorld (guardrail_name w) (_config_id w) (_configs_cache w) (data w) (heap w)
     (issued w ++ [req])).

Definition _get_config_id : M json :=
  w ← get_world;
  if Py.truthy (_config_id w) then mret (_config_id w) else
  (if match _configs_cache w with JNull => true | _ => false end then
     (* try: ... except Exception: raise *)
     response_json ← send GetConfigs;
     set_configs_cache response_json;;
     _ ← lift (Py.len response_json);
     mret ()
   else mret ());;
  w ← get_world;
  let cache := _configs_cache w in
  unavailable ← (if negb (Py.truthy cache) then mret true
                 else n ← lift (Py.len cache); mret (n =? 0)%nat);
  if unavailable : bool then
    raise (ValueError "No NeMo Guardrails configurations available")
  else
    first ← lift (Py.getitem0 cache);
    config_id ← lift (Py.get first "id" JNull);
    if negb (Py.truthy config_id) then raise (ValueError "Config ID not found in response")
    else mret config_id.

Definition _check_message_with_api (messages : list json) : M json :=
  config_id ← _get_config_id;
  send (PostChat config_id messages).

Definition add_standard_logging_guardrail_information_to_request_data
    (guardrail_json_response : log_data) : M unit :=
  w ← get_world;
  let d := data w in
  set_data (RequestData (data_messages d)
              (data_guardrail_information d ++ [guardrail_json_response])
              (data_applied_guardrails d)).

Definition add_guardrail_to_applied_guardrails_header : M unit :=
  w ← get_world;
  let d := data w in
  set_data (RequestData (data_messages d) (data_guardrail_information d)
              (data_applied_guardrails d ++ [guardrail_name w])).

(** [v[:100] if v else absent] *)
Definition preview (v : json) : M (option json) :=
  if Py.truthy v then p ← lift (Py.slice100 v); mret (Some p) else mret None.

Definition _log_guardrail_result (status reason : string)
    (user_message llm_response policy_name : json) : M unit :=
  w ← get_world;
  let policy := if Py.truthy policy_name then Some policy_name else None in
  user_message_preview ← preview user_message;
  llm_response_preview ← preview llm_response;
  add_standard_logging_guardrail_information_to_request_data
    (LogData (guardrail_name w) status reason policy
       user_message_preview llm_response_preview).

(** [data.get("messages", [])] *)
Definition request_messages (d : request_data) : json :=
  default (JList []) (data_messages d).

(** The loop [for msg in reversed(messages)] of the pre-call hook over the
    elements last first, started with [user_message = None].  [msg.get]
    raises on an element that is not a dict; [msg.get("role") == "user"]
    holds of the string "user" only. *)
Fixpoint last_user_message (reversed : list json) : result json :=
  match reversed with
  | [] => mret JNull
  | msg :: rest =>
      role ← Py.get msg "role" JNull;
      if Py.is_str "user" role then Py.get msg "content" (JStr "")
      else last_user_message rest
  end.

(** The loop over [reversed(messages)], whatever [messages] holds.  A
    list is walked last element first.  A string yields its characters and
    a dict its keys, all of them strings, on which [msg.get] raises at the
    first iteration, if there is one ([reversed] of a dict is itself a
    [TypeError] before Python 3.8: the caller catches both alike).
    [reversed] raises on [None], a number or a boolean. *)
Definition user_message_in (messages : json) : result json :=
  match messages with
  | JList l => last_user_message (reverse l)
  | JStr _ | JDict _ => if Py.truthy messages then Raise AttributeError else mret JNull
  | _ => Raise TypeError
  end.

Definition api_message (role : string) (text : json) : json :=
  JDict {[ "role" := JStr role; "content" := text ]}.

Definition pre_call_body : M unit :=
  w ← get_world;
  let messages := request_messages (data w) in
  if negb (Py.truthy messages) then mret () else
  user_message ← lift (user_message_in messages);
  if negb (Py.truthy user_message) then mret () else
  _ ← lift (Py.slice100 user_message);
  api_response ← _check_message_with_api [api_message "user" user_message];
  '(is_blocked, reason, policy_name) ← lift (_is_message_blocked api_response);
  if is_blocked : bool then
    _log_guardrail_result "blocked"
      ("Message blocked by NeMo Guardrails: " +:+ format reason)
      user_message JNull policy_name;;
    w ← get_world;
    raise (GuardrailRaisedException
             ("Your message was blocked by content safety policies. Policy violated: "
              +:+ format (Py.or policy_name (JStr "Content Safety")))
             (guardrail_name w))
  else
    _log_guardrail_result "passed" "Message passed NeMo Guardrails checks"
      user_message JNull JNull;;
    add_guardrail_to_applied_guardrails_header;;
    mret ().

Definition async_pre_call_hook : M unit :=
  w ← get_world;
  if negb (should_run_guardrail (data w) pre_call) then mret () else
  if negb (should_proceed_based_on_metadata (data w) GUARDRAIL_NAME) then mret () else
  try_except pre_call_body (λ e,
    if Str.contains "GuardrailRaisedException" (Py.type_str e) then raise e
    else
      _log_guardrail_result "error" ("Error: " +:+ str_exn e) JNull JNull JNull;;
      mret ()).

(** The extraction of [response_content] in the post-call hook. *)
Definition response_content (r : option ModelResponse) : json :=
  match r with
  | Some {| choices := Some (choice :: _) |} =>
      match message choice with
      | Some {| content := Some v |} => v
      | _ => JNull
      end
  | _ => JNull
  end.

(** [response.choices[0].message.content = v] under the guard
    [hasattr(response, "choices") and len(response.choices) > 0]. *)
Definition rewrite_content (response : nat) (v : json) : M unit :=
  w ← get_world;
  match heap w !! response with
  | Some {| choices := Some (choice :: rest) |} =>
      match message choice with
      | Some _ =>
          set_heap (<[response :=
            {| choices := Some ({| message := Some {| content := Some v |} |} :: rest) |}]>
            (heap w))
      | None => raise AttributeError
      end
  | _ => mret ()
  end.

Definition refusal (policy : string) : string :=
  "I apologize, but I cannot provide that response as it violates content safety policies. (Policy: "
  +:+ policy +:+ ")".

Definition post_call_body (response : nat) : M nat :=
  w ← get_world;
  let response_content := response_content (heap w !! response) in
  if negb (Py.truthy response_content) then mret response else
  _ ← lift (Py.slice100 response_content);
  api_response ← _check_message_with_api [api_message "assistant" response_content];
  '(is_blocked, reason, policy_name) ← lift (_is_message_blocked api_response);
  (if is_blocked : bool then
     _log_guardrail_result "blocked"
       ("LLM response blocked by NeMo Guardrails: " +:+ format reason)
       JNull response_content policy_name;;
     rewrite_content response
       (JStr (refusal (format (Py.or policy_name (JStr "Content Safety")))))
   else
     _log_guardrail_result "passed" "LLM response passed NeMo Guardrails checks"
       JNull response_content JNull);;
  add_guardrail_to_applied_guardrails_header;;
  mret response.

Definition async_post_call_success_hook (response : nat) : M nat :=
  w ← get_world;
  if negb (should_run_guardrail (data w) post_call) then mret response else
  if negb (should_proceed_based_on_metadata (data w) GUARDRAIL_NAME) then mret response else
  try_except (post_call_body response) (λ e,
    _log_guardrail_result "error" ("Error: " +:+ str_exn e) JNull JNull JNull;;
    mret response).

End Guardrail.

(** ** Regular expressions as [re.search] uses them ([actions.py]) *)

Module Re.

Inductive regex : Type :=
| Empty                       (* matches nothing *)
| Eps                         (* the empty pattern *)
| Chr (c : ascii)             (* a literal character *)
| Digit                       (* \d *)
| Cat (r1 r2 : regex)
| Alt (r1 r2 : regex)         (* r1|r2 *)
| Star (r : regex).

(** A literal run of characters. *)
Fixpoint Lit (s : string) : regex :=
  match s with
  | EmptyString => Eps
  | String c s' => Cat (Chr c) (Lit s')
  end.

(** [r+] *)
Definition Plus (r : regex) : regex := Cat r (Star r).

Definition is_digit (c : ascii) : bool :=
  let n := N_of_ascii c in ((48 <=? n) && (n <=? 57))%N.

Fixpoint nullable (r : regex) : bool :=
  match r with
  | Empty | Chr _ | Digit => false
  | Eps | Star _ => true
  | Cat r1 r2 => nullable r1 && nullable r2
  | Alt r1 r2 => nullable r1 || nullable r2
  end.

(** The residual of [r] after reading [c]. *)
Fixpoint deriv (c : ascii) (r : regex) : regex :=
  match r with
  | Empty | Eps => Empty
  | Chr a => if Ascii.eqb a c then Eps else Empty
  | Digit => if is_digit c then Eps else Empty
  | Cat r1 r2 =>
      if nullable r1 then Alt (Cat (deriv c r1) r2) (deriv c r2)
      else Cat (deriv c r1) r2
  | Alt r1 r2 => Alt (deriv c r1) (deriv c r2)
  | Star r1 => Cat (deriv c r1) (Star r1)
  end.

(** [re.match(r, s) is not None]: some prefix of [s] matches [r]. *)
Fixpoint match_ (r : regex) (s : string) : bool :=
  nullable r ||
  match s with
  | EmptyString => false
  | String c s' => match_ (deriv c r) s'
  end.

(** [re.search(r, s) is not None]: [r] matches at some position of [s]. *)
Fixpoint search (r : regex) (s : string) : bool :=
  match_ r s ||
  match s with
  | EmptyString => false
  | String _ s' => search r s'
  end.

(** The language of a pattern, against which [match_] and [search] are
    checked: [matches r s] when the whole of [s] is matched by [r]. *)
Inductive matches : regex → string → Prop :=
| MEps : matches Eps ""
| MChr c : matches (Chr c) (String c "")
| MDigit c : is_digit c = true → matches Digit (String c "")
| MCat r1 r2 s1 s2 :
    matches r1 s1 → matches r2 s2 → matches (Cat r1 r2) (s1 +:+ s2)
| MAltL r1 r2 s : matches r1 s → matches (Alt r1 r2) s
| MAltR r1 r2 s : matches r2 s → matches (Alt r1 r2) s
| MStarNil r : matches (Star r) ""
| MStarApp r s1 s2 :
    matches r s1 → matches (Star r) s2 → matches (Star r) (s1 +:+ s2).

(** Two static analyses of a pattern.  [void r]: [r] matches no string at
    all. *)
Fixpoint void (r : regex) : bool :=
  match r with
  | Empty => true
  | Eps | Chr _ | Digit | Star _ => false
  | Cat r1 r2 => void r1 || void r2
  | Alt r1 r2 => void r1 && void r2
  end.

(** [starts_upper r]: every string matched by [r] begins with an
    upper-case letter. *)
Fixpoint starts_upper (r : regex) : bool :=
  match r with
  | Empty => true
  | Eps | Digit | Star _ => false
  | Chr c => Str.is_upper c
  | Cat r1 _ => starts_upper r1
  | Alt r1 r2 => starts_upper r1 && starts_upper r2
  end.

(** [s] holds no upper-case letter. *)
Fixpoint no_upper (s : string) : bool :=
  match s with
  | EmptyString => true
  | String c s' => negb (Str.is_upper c) && no_upper s'
  end.

End Re.

(** ** Local detectors ([actions.py]) *)

Module Actions.
Import Re.

(** The prologue shared by the detectors of bot messages: [Ok None] when
    the detector returns [False] at once, [Ok (Some message_lower)] when it
    goes on to its patterns. *)
Definition bot_message_lower (context : option (gmap string json))
    : result (option string) :=
  match context with
  | None => mret None
  | Some ctx =>
      if negb (Py.truthy (JDict ctx)) then mret None else
      bot_message ← Py.get (JDict ctx) "bot_message" (JStr "");
      bot_message ← (if negb (Py.truthy bot_message)
                     then Py.get (JDict ctx) "last_bot_message" (JStr "")
                     else mret bot_message);
      if negb (Py.truthy bot_message) then mret None else
      match bot_message with
      | JStr s => mret (Some (Str.lower s))
      | _ => Raise AttributeError      (* no [lower] on a value that is not a str *)
      end
  end.

Definition harmful_keywords : list string :=
  ["violence"; "violent"; "attack"; "hurt"; "harm"; "kill"; "murder";
   "suicide"; "self-harm"; "cutting";
   "illegal"; "crime"; "criminal";
   "hack"; "exploit"; "malware"; "virus";
   "drug"; "cocaine"; "heroin"; "meth";
   "weapon"; "bomb"; "explosive";
   "discriminate"; "racist"; "sexist"].

Definition instruction_patterns (keyword : string) : list string :=
  ["how to " +:+ keyword;
   "ways to " +:+ keyword;
   "steps to " +:+ keyword;
   "to " +:+ keyword +:+ " someone";
   keyword +:+ " by"].

(** The inner loop [for pattern in instruction_patterns]. *)
Fixpoint scan_patterns (message_lower : string) (patterns : list string) : bool :=
  match patterns with
  | [] => false
  | pattern :: patterns' =>
      if Str.contains pattern message_lower then true
      else scan_patterns message_lower patterns'
  end.

(** The outer loop [for keyword in harmful_keywords]. *)
Fixpoint scan_keywords (message_lower : string) (keywords : list string) : bool :=
  match keywords with
  | [] => false
  | keyword :: keywords' =>
      if Str.contains keyword message_lower then
        if scan_patterns message_lower (instruction_patterns keyword) then true
        else scan_keywords message_lower keywords'
      else scan_keywords message_lower keywords'
  end.

Definition is_harmful_content (context : option (gmap string json)) : result bool :=
  message_lower ← bot_message_lower context;
  match message_lower with
  | None => mret false
  | Some message_lower => mret (scan_keywords message_lower harmful_keywords)
  end.

Definition one_of (words : list string) : regex :=
  foldr (λ w r, Alt (Lit w) r) Empty words.

Definition violations : list regex :=
  [ Cat (Lit "I can help you ") (one_of ["hack"; "steal"; "break into"]);
    Cat (Lit "Here's how to ") (one_of ["hurt"; "harm"; "attack"]);
    Lit "To bypass security";
    Cat (Lit "Step ") (Cat (Plus Digit) (Cat (Lit ": ") (one_of ["hack"; "exploit"; "steal"]))) ].

(** The loop [for pattern in violations]. *)
Fixpoint scan_violations (message_lower : string) (patterns : list regex) : bool :=
  match patterns with
  | [] => false
  | pattern :: patterns' =>
      if search pattern message_lower then true
      else scan_violations message_lower patterns'
  end.

Definition violates_policy (context : option (gmap string json)) : result bool :=
  message_lower ← bot_message_lower context;
  match message_lower with
  | None => mret false
  | Some message_lower => mret (scan_violations message_lower violations)
  end.

End Actions.

(** ** Detectors of user messages ([actions.py]) *)

Module UserActions.
Import Re.

(** The characters [\s] matches in the ASCII range, those of
    [Str.isspace]. *)
Definition whitespace : list ascii :=
  map ascii_of_nat [9; 10; 11; 12; 13; 28; 29; 30; 31; 32].

(** [\s] *)
Definition Space : regex := foldr (λ c r, Alt (Chr c) r) Empty whitespace.

(** [\s+] and [\s*] *)
Definition sp : regex := Plus Space.
Definition sp0 : regex := Star Space.

(** [(r)?] *)
Definition Opt (r : regex) : regex := Alt r Eps.

(** The pieces of a pattern, in the order they are written. *)
Definition seq (rs : list regex) : regex := foldr Cat Eps rs.

(** [(r1|r2|...)] *)
Definition alt (rs : list regex) : regex := foldr Alt Empty rs.

(** The prologue shared by the detectors of user messages: [Ok None] when
    the detector returns [False] at once, [Ok (Some user_message)]
    otherwise. *)
Definition user_message (context : option (gmap string json)) : result (option json) :=
  match context with
  | None => mret None
  | Some ctx =>
      if negb (Py.truthy (JDict ctx)) then mret None else
      user_message ← Py.get (JDict ctx) "user_message" (JStr "");
      if negb (Py.truthy user_message) then mret None else mret (Some user_message)
  end.

(** The loop [for pattern in patterns: if re.search(pattern, message_lower):
    return True] of [detect_jailbreak_attempt] and [detect_harmful_intent]. *)
Fixpoint search_any (message_lower : string) (patterns : list regex) : bool :=
  match patterns with
  | [] => false
  | pattern :: patterns' =>
      if search pattern message_lower then true
      else search_any message_lower patterns'
  end.

(** The body the two detectors share, up to their list of patterns. *)
Definition detect_patterns (patterns : list regex)
    (context : option (gmap string json)) : result bool :=
  user_message ← user_message context;
  match user_message with
  | None => mret false
  | Some (JStr s) => mret (search_any (Str.lower s) patterns)
  | Some _ => Raise AttributeError     (* no [lower] on a value that is not a str *)
  end.

Definition jailbreak_patterns : list regex :=
  [ seq [Lit "ignore"; sp; Opt (seq [Lit "all"; sp]); Lit "previous"; sp; Lit "instructions"];
    seq [Lit "forget"; sp; Opt (seq [Lit "all"; sp]); Lit "instructions"];
    seq [Lit "you"; sp; Lit "are"; sp; Lit "now"];
    seq [Lit "new"; sp; Lit "role"; sp0; Lit ":"];
    seq [Lit "pretend"; sp; alt [seq [Lit "you"; sp; Lit "are"]; seq [Lit "to"; sp; Lit "be"]]];
    seq [Lit "act"; sp; Lit "as"; sp; alt [Lit "if"; Lit "though"]];
    seq [Lit "DAN"; sp; Lit "mode"];
    seq [Lit "developer"; sp; Lit "mode"];
    Lit "jailbreak";
    seq [Lit "bypass"; sp; Lit "your"; sp;
         alt [Lit "programming"; Lit "instructions"; Lit "guidelines"]];
    seq [Lit "sudo"; sp; Lit "mode"];
    seq [Lit "admin"; sp; Lit "mode"];
    seq [Lit "god"; sp; Lit "mode"];
    seq [Lit "unrestricted"; sp; Lit "mode"];
    seq [Lit "ignore"; sp; Lit "your"; sp; alt [Lit "ethics"; Lit "guidelines"; Lit "rules"]] ].

Definition detect_jailbreak_attempt : option (gmap string json) → result bool :=
  detect_patterns jailbreak_patterns.

Definition harmful_patterns : list regex :=
  [ seq [Lit "how"; sp; Lit "to"; sp;
         alt [Lit "hurt"; Lit "harm"; Lit "attack"; Lit "injure"; Lit "kill"]];
    seq [Lit "ways"; sp; Lit "to"; sp;
         alt [Lit "hurt"; Lit "harm"; Lit "attack"; Lit "injure"]];
    seq [Lit "methods"; sp; alt [Lit "to"; Lit "for"]; sp;
         alt [Lit "hurt"; Lit "harm"; Lit "kill"]];
    seq [Lit "how"; sp; Lit "to"; sp;
         alt [Lit "hack"; Lit "crack"; seq [Lit "break"; sp; Lit "into"]; Lit "steal"]];
    seq [Lit "bypass"; sp; Lit "security"];
    seq [Lit "exploit"; sp; alt [Lit "vulnerability"; Lit "system"]];
    seq [Lit "illegal"; sp; Lit "ways"];
    seq [alt [Lit "create"; Lit "generate"; Lit "write"]; sp;
         alt [Lit "malware"; Lit "virus"; Lit "ransomware"]];
    seq [Lit "exploit"; sp; Lit "code"];
    seq [Lit "phishing"; sp; alt [Lit "email"; Lit "template"]];
    seq [Lit "backdoor"; sp; Lit "code"];
    seq [Lit "how"; sp; Lit "to"; sp;
         alt [seq [Lit "commit"; sp; Lit "suicide"]; seq [Lit "kill"; sp; Lit "myself"];
              seq [Lit "end"; sp; Lit "my"; sp; Lit "life"]]];
    seq [Lit "suicide"; sp; Lit "methods"];
    seq [Lit "painless"; sp; Lit "death"] ].

Definition detect_harmful_intent : option (gmap string json) → result bool :=
  detect_patterns harmful_patterns.

Section Pii.

(** [re.search(pattern, s) is not None] for the patterns of [contains_pii],
    which use word boundaries and character classes: the pattern is kept
    as its source text and the matcher is a parameter. *)
Variable re_search : string → string → bool.

Definition pii_patterns : list (string * string) :=
  [ ("email", "\b[A-Za-z0-9._%+-]+@[A-Za-z0-9.-]+\.[A-Z|a-z]{2,}\b");
    ("phone_us", "\b\d{3}[-.]?\d{3}[-.]?\d{4}\b");
    ("phone_intl", "\b\+\d{1,3}[-.\s]?\d{1,4}[-.\s]?\d{1,4}[-.\s]?\d{1,9}\b");
    ("ssn", "\b\d{3}-\d{2}-\d{4}\b");
    ("credit_card", "\b\d{4}[-\s]?\d{4}[-\s]?\d{4}[-\s]?\d{4}\b");
    ("ip_address", "\b(?:\d{1,3}\.){3}\d{1,3}\b") ].

Definition pii_keywords : list string :=
  [ "social security"; "ssn is"; "credit card"; "card number"; "cvv";
    "password is"; "my password"; "bank account"; "routing number" ].

(** The loop [for pii_type, pattern in patterns.items()]. *)
Fixpoint scan_pii_patterns (user_message : string)
    (patterns : list (string * string)) : bool :=
  match patterns with
  | [] => false
  | (pii_type, pattern) :: patterns' =>
      if re_search pattern user_message then true
      else scan_pii_patterns user_message patterns'
  end.

(** The loop [for keyword in pii_keywords]. *)
Fixpoint scan_pii_keywords (message_lower : string) (keywords : list string) : bool :=
  match keywords with
  | [] => false
  | keyword :: keywords' =>
      if Str.contains keyword message_lower then true
      else scan_pii_keywords message_lower keywords'
  end.

Definition contains_pii (context : option (gmap string json)) : result bool :=
  user_message ← user_message context;
  match user_message with
  | None => mret false
  | Some (JStr s) =>
      if scan_pii_patterns s pii_patterns then mret true
      else mret (scan_pii_keywords (Str.lower s) pii_keywords)
  | Some _ => Raise TypeError     (* [re.search] wants a string *)
  end.

End Pii.

End UserActions.

(** * Vocabulary of the properties *)

(** ** Predicates and updates of the world *)

(** The response has the field [messages[0].content], holding [c]. *)
Definition has_content (d : gmap string json) (c : json) : Prop :=
  ∃ m rest, d !! "messages" = Some (JList (JDict m :: rest)) ∧ m !! "content" = Some c.


(** The response attributes no policy through its metadata. *)
Definition no_policy_metadata (d : gmap string json) : Prop :=
  d !! "metadata" = None ∨
  ∃ md, d !! "metadata" = Some (JDict md) ∧
        md !! "violated_policy" = None ∧ md !! "policy_name" = None.

(** A message dict of another role than "user", or of none. *)
Definition other_role_message (msg : json) : Prop :=
  ∃ d, msg = JDict d ∧ d !! "role" ≠ Some (JStr "user").

(** The error of the resolver when no configuration is available. *)
Definition no_configurations : exn :=
  ValueError "No NeMo Guardrails configurations available".

(** [w] after one more request has been issued. *)
Definition after_request (w : World) (req : request) : World :=
  MkWorld (guardrail_name w) (_config_id w) (_configs_cache w) (data w) (heap w)
    (issued w ++ [req]).

(** [w] with the configurations cache set. *)
Definition with_cache (w : World) (cache : json) : World :=
  MkWorld (guardrail_name w) (_config_id w) cache (data w) (heap w) (issued w).

(** [w] after [entry] has been handed to the logging collaborator. *)
Definition log_appended (w : World) (entry : log_data) : World :=
  MkWorld (guardrail_name w) (_config_id w) (_configs_cache w)
    (RequestData (data_messages (data w))
       (data_guardrail_information (data w) ++ [entry])
       (data_applied_guardrails (data w)))
    (heap w) (issued w).

(** [w] after the guardrail has been added to the applied-guardrails header. *)
Definition header_appended (w : World) : World :=
  MkWorld (guardrail_name w) (_config_id w) (_configs_cache w)
    (RequestData (data_messages (data w))
       (data_guardrail_information (data w))
       (data_applied_guardrails (data w) ++ [guardrail_name w]))
    (heap w) (issued w).

(** [w] with the object at [response] replaced. *)
Definition with_object (w : World) (response : nat) (r : ModelResponse) : World :=
  MkWorld (guardrail_name w) (_config_id w) (_configs_cache w) (data w)
    (<[response := r]> (heap w)) (issued w).

(** The log entry of a failed check. *)
Definition error_entry (w : World) (reason : string) : log_data :=
  LogData (guardrail_name w) "error" reason None None None.

(** Unfolding of the monad of hooks. *)
Ltac unfold_M :=
  unfold mbind, mret, M_bind, M_ret, raise, lift, get_world, put_world,
    try_except, set_configs_cache, set_data, set_heap, send in *.

(** The error of the resolver when the first configuration has no id. *)
Definition config_id_not_found : exn := ValueError "Config ID not found in response".

(** The log entry of a blocked check. *)
Definition blocked_entry (name reason : string) (policy_name : json)
    (user_preview llm_preview : option json) : log_data :=
  LogData name "blocked" reason
    (if Py.truthy policy_name then Some policy_name else None) user_preview llm_preview.

(** The HTTP layer raises exceptions of [requests] only. *)
Definition raises_requests_only (http : list request → request → result json) : Prop :=
  ∀ history req e, http history req = Raise e → ∃ cls msg, e = Requests cls msg.

(** [w1] is [w] up to the cache of configurations and the requests
    issued. *)
Definition same_request_state (w w1 : World) : Prop :=
  guardrail_name w1 = guardrail_name w ∧ data w1 = data w ∧ heap w1 = heap w.

(** The exceptions of Python's own operations on values. *)
Definition builtin_error (e : exn) : Prop :=
  e = KeyError ∨ e = IndexError ∨ e = TypeError ∨ e = AttributeError.

(** [s] is made of whitespace only. *)
Fixpoint allspace (s : string) : bool :=
  match s with
  | EmptyString => true
  | String c s' => Str.isspace c && allspace s'
  end.

(** Some blocking phrase is a case-insensitive substring of [text]. *)
Definition some_blocking_phrase (text : string) : Prop :=
  ∃ phrase, In phrase blocking_phrases ∧
            Str.contains (Str.lower phrase) (Str.lower text) = true.

(** [phrase] contains, case-insensitively, a phrase of the policy table or
    a legacy phrase. *)
Definition attributable (phrase : string) : bool :=
  existsb (λ kv, Str.contains (Str.lower kv.1) (Str.lower phrase)) policy_mapping
  || existsb (λ l, Str.contains (Str.lower l) (Str.lower phrase)) legacy_phrases.

(** The context gives the detector of user messages nothing to check. *)
Definition no_user_message (context : option (gmap string json)) : Prop :=
  match context with
  | None => True
  | Some ctx => Py.truthy (default (JStr "") (ctx !! "user_message")) = false
  end.

(** The context gives the detector of bot messages nothing to check. *)
Definition no_bot_message (context : option (gmap string json)) : Prop :=
  match context with
  | None => True
  | Some ctx =>
      Py.truthy (default (JStr "") (ctx !! "bot_message")) = false ∧
      Py.truthy (default (JStr "") (ctx !! "last_bot_message")) = false
  end.

(** ** Concrete inputs *)

(** A reply of the remote service in its usual shape. *)
Definition reply (text : string) : json :=
  JDict {[ "messages" := JList [JDict {[ "role" := JStr "assistant"; "content" := JStr text ]}] ]}.

Definition reply_with_metadata (text : string) (metadata : json) : json :=
  JDict {[ "messages" := JList [JDict {[ "role" := JStr "assistant"; "content" := JStr text ]}];
           "metadata" := metadata ]}.

(** A response in the legacy shape with top-level [choices]. *)
Definition legacy_choices : gmap string json :=
  {[ "choices" := JList [JDict {[ "message" := JDict {[ "content" := JStr "hello" ]} ]}] ]}.


Definition self_harm_key : string :=
  "I'm sorry you're feeling this way. If you're in immediate danger, please contact your local emergency services.".

Definition jailbreak_key : string :=
  "I'm sorry, I can't respond to that request. I'm designed to follow specific guidelines and I cannot ignore or change my instructions.".

Definition bypass_reply : gmap string json :=
  {[ "messages" := JList [JDict {[ "role" := JStr "assistant";
       "content" := JStr "I can't assist with attempts to bypass safety or moderation rules. Please ask a different question." ]}] ]}.

(** A guardrail built without a configuration id, before any request. *)
Definition fresh_world : World :=
  MkWorld "nemo" JNull JNull (RequestData None [] []) ∅ [].

Definition http_down : list request → request → result json :=
  λ _ _, Raise (Requests ConnectionError "connection refused").

Definition http_no_configs : list request → request → result json :=
  λ _ _, Ok (JList []).

(** Collaborators that let every hook run, and a stand-in for [str]. *)
Definition always : request_data → GuardrailEventHooks → bool := λ _ _, true.
Definition proceed : request_data → string → bool := λ _ _, true.
Definition show_value : json → string := λ _, "None".
Definition show_exn : exn → string :=
  λ e, match e with Requests _ msg => msg | _ => "" end.

Definition user_says (text : string) : gmap string json :=
  {[ "role" := JStr "user"; "content" := JStr text ]}.

Definition assistant_says (text : string) : gmap string json :=
  {[ "role" := JStr "assistant"; "content" := JStr text ]}.

(** The service lists one configuration and times out on classification. *)
Definition http_timeout : list request → request → result json :=
  λ _ req,
    match req with
    | GetConfigs => Ok (JList [JDict {[ "id" := JStr "default" ]}])
    | PostChat _ _ => Raise (Requests Timeout "timed out")
    end.

Definition asking_world : World :=
  MkWorld "nemo" JNull JNull
    (RequestData (Some (JList [JDict (user_says "hi")])) [] []) ∅ [].

(** An earlier question with text, then an empty user message, then an
    assistant message. *)
Definition empty_last_question : World :=
  MkWorld "nemo" JNull JNull
    (RequestData
       (Some (JList ([JDict (user_says "an earlier question")] ++
                     JDict (user_says "") :: [JDict (assistant_says "an answer")])))
       [] [])
    ∅ [].

(** An empty user message followed by an entry that is no message. *)
Definition malformed_after_empty_question : World :=
  MkWorld "nemo" JNull JNull
    (RequestData (Some (JList [JDict (user_says ""); JNum 42])) [] []) ∅ [].

(** The service refuses with a legacy phrase; the guardrail has an explicit
    configuration id. *)
Definition http_refuses : list request → request → result json :=
  λ _ _, Ok (reply "I cannot assist with that").

Definition answer (text : string) : ModelResponse :=
  {| choices := Some [ {| message := Some {| content := Some (JStr text) |} |} ] |}.

Definition answered_world : World :=
  MkWorld "nemo" (JStr "default") JNull
    (RequestData (Some (JList [JDict (user_says "hi")])) [] [])
    {[ 0 := answer "some harmful text" ]} [].

(** A detector context holding a bot message. *)
Definition bot (text : string) : gmap string json := {[ "bot_message" := JStr text ]}.

(** The dict of a reply of the remote service. *)
Definition reply_map (text : string) : gmap string json :=
  {[ "messages" := JList [JDict {[ "role" := JStr "assistant"; "content" := JStr text ]}] ]}.

(** A reply whose content is a list of parts. *)
Definition reply_in_parts : gmap string json :=
  {[ "messages" := JList [JDict {[ "content" :=
       JList [JDict {[ "type" := JStr "text"; "text" := JStr "hello" ]}] ]}] ]}.

(** The service lists one configuration without an id. *)
Definition http_no_id : list request → request → result json :=
  λ _ _, Ok (JList [JDict {[ "name" := JStr "default" ]}]).

(** The service answers every request with a harmless greeting. *)
Definition http_greets : list request → request → result json :=
  λ _ _, Ok (reply "Hello, how can I help?").

(** The service answers every request with an empty dict. *)
Definition http_empty : list request → request → result json :=
  λ _ _, Ok (JDict ∅).

(** A response object without choices. *)
Definition silent_world : World :=
  MkWorld "nemo" (JStr "default") JNull
    (RequestData (Some (JList [JDict (user_says "hi")])) [] [])
    {[ 0 := {| choices := Some [] |} ]} [].

(** A context holding a user message. *)
Definition user (text : string) : gmap string json := {[ "user_message" := JStr text ]}.

(** * Properties *)

(** ** Substrings *)

Lemma append_nil (b : string) : "" +:+ b = b.
Proof. reflexivity. Qed.

Lemma append_cons (x : ascii) (a b : string) : String x a +:+ b = String x (a +:+ b).
Proof. reflexivity. Qed.

Lemma append_nil_r (a : string) : a +:+ "" = a.
Proof. induction a as [|x a IH]; [done|]. by rewrite append_cons, IH. Qed.

Lemma app_assoc_string (a b c : string) : (a +:+ b) +:+ c = a +:+ b +:+ c.
Proof.
  induction a as [|x a IH]; [done|]. by rewrite !append_cons, IH.
Qed.

Lemma prefix_spec (p s : string) :
  String.prefix p s = true ↔ ∃ b, s = p +:+ b.
Proof.
  revert s. induction p as [|x p IH]; intros s.
  - split; [|by destruct s]. intros _. by exists s.
  - destruct s as [|y s]; simpl.
    + split; [done|]. intros [b Hb]. by rewrite append_cons in Hb.
    + destruct (ascii_dec x y) as [->|Hne].
      * rewrite IH. split; intros [b Hb]; exists b.
        -- by rewrite append_cons, Hb.
        -- rewrite append_cons in Hb. by injection Hb.
      * split; [done|]. intros [b Hb]. rewrite append_cons in Hb.
        injection Hb as Hxy _. by subst.
Qed.

Lemma contains_nil (p : string) : Str.contains p "" = String.prefix p "".
Proof. apply orb_false_r. Qed.

Lemma contains_cons (p : string) (y : ascii) (s : string) :
  Str.contains p (String y s) = String.prefix p (String y s) || Str.contains p s.
Proof. reflexivity. Qed.

Lemma contains_spec (p s : string) :
  Str.contains p s = true ↔ ∃ a b, s = a +:+ p +:+ b.
Proof.
  induction s as [|y s IH]; [rewrite contains_nil|rewrite contains_cons].
  - rewrite prefix_spec. split.
    + intros [b Hb]. by exists "", b.
    + intros (a & b & Hab). destruct a as [|x a]; [by exists b|].
      by rewrite append_cons in Hab.
  - rewrite orb_true_iff, IH, prefix_spec. split.
    + intros [[b Hb] | (a & b & Hab)].
      * by exists "", b.
      * exists (String y a), b. by rewrite append_cons, Hab.
    + intros (a & b & Hab). destruct a as [|x a].
      * left. by exists b.
      * right. rewrite append_cons in Hab. injection Hab as _ Hs. by exists a, b.
Qed.

Lemma contains_trans (k p s : string) :
  Str.contains k p = true → Str.contains p s = true → Str.contains k s = true.
Proof.
  rewrite !contains_spec. intros (a & b & ->) (a' & b' & ->).
  exists (a' +:+ a), (b +:+ b'). by rewrite !app_assoc_string.
Qed.

(** ** Blocking decision classifier *)

Lemma truthy_dict_lookup (d : gmap string json) k v :
  d !! k = Some v → Py.truthy (JDict d) = true.
Proof.
  intros Hk. simpl. apply negb_true_iff, Nat.eqb_neq.
  intros Hsz. apply map_size_empty_iff in Hsz. subst d.
  by rewrite lookup_empty in Hk.
Qed.

Lemma messages_0_content_has (d : gmap string json) c :
  has_content d c → messages_0_content (JDict d) = Ok c.
Proof.
  intros (m & rest & Hd & Hm). unfold messages_0_content. simpl.
  rewrite Hd. simpl. by rewrite Hm.
Qed.

Lemma messages_0_content_lacks (d : gmap string json) :
  (∀ c, ¬ has_content d c) → ∃ e, messages_0_content (JDict d) = Raise e.
Proof.
  intros Hno. unfold messages_0_content. simpl.
  destruct (d !! "messages") as [ms|] eqn:Hd; simpl; [|eauto].
  destruct ms as [| | |s|l|d']; simpl; eauto.
  - destruct s; simpl; eauto.
  - destruct l as [|first rest]; simpl; [eauto|].
    destruct first as [| | | | |m]; simpl; eauto.
    destruct (m !! "content") as [c|] eqn:Hm; [|eauto].
    exfalso. apply (Hno c). by exists m, rest.
Qed.

Lemma is_message_blocked_raise api_response e :
  messages_0_content api_response = Raise e →
  _is_message_blocked api_response = Raise e.
Proof. intros H. unfold _is_message_blocked. by rewrite H. Qed.

Lemma is_message_blocked_text (d : gmap string json) text :
  has_content d (JStr text) →
  _is_message_blocked (JDict d) =
    if String.eqb text "" || String.eqb (Str.strip text) ""
    then Ok (true, JStr "Empty response from guardrails", JNull)
    else scan_blocking_phrases (JDict d) text blocking_phrases.
Proof.
  intros Hc. pose proof Hc as (m & rest & Hd & _).
  unfold _is_message_blocked.
  rewrite (messages_0_content_has _ _ Hc), (truthy_dict_lookup _ _ _ Hd).
  simpl. by destruct (String.eqb text "").
Qed.


Lemma policy_from_metadata_none (d : gmap string json) :
  no_policy_metadata d → policy_from_metadata (JDict d) = Ok None.
Proof.
  unfold policy_from_metadata.
  intros [Hmd|(md & Hmd & Hv & Hp)]; simpl; rewrite Hmd; simpl; [done|].
  by rewrite Hv, Hp.
Qed.

Lemma scan_blocking_phrases_tables (d : gmap string json) text phrases :
  no_policy_metadata d →
  scan_blocking_phrases (JDict d) text phrases =
    match find (λ phrase, Str.contains (Str.lower phrase) (Str.lower text)) phrases with
    | Some phrase =>
        Ok (true, JStr ("Blocking phrase detected: " +:+ phrase),
            JStr (policy_from_tables text))
    | None => Ok (false, JNull, JNull)
    end.
Proof.
  intros Hmeta. induction phrases as [|phrase phrases IH]; simpl; [done|].
  destruct (Str.contains _ _); [|done].
  unfold _extract_policy_name. by rewrite policy_from_metadata_none.
Qed.

(** C3, as the code behaves: an empty or absent response never reaches the
    guard [if not api_response]; the subscript in the logging call on the
    line before it raises, [KeyError] for the empty dict and [TypeError]
    for [None], so no decision is returned where the claim expects
    blocked with reason "Empty response from guardrails API". *)
Theorem C3_empty_response_raises :
  _is_message_blocked (JDict ∅) = Raise KeyError ∧
  _is_message_blocked JNull = Raise TypeError ∧
  _is_message_blocked (JList []) = Raise TypeError.
Proof. repeat split; reflexivity. Qed.

(** Every falsy response (the ones the guard [if not api_response] is
    written for) makes the classifier raise. *)
Lemma is_message_blocked_falsy api_response :
  Py.truthy api_response = false → ∃ e, _is_message_blocked api_response = Raise e.
Proof.
  intros Hf. destruct api_response as [| | | | |d]; try (by eexists).
  apply negb_false_iff, Nat.eqb_eq, map_size_empty_iff in Hf. subst d.
  by eexists.
Qed.

(** C4: a non-empty response dict without the field [messages[0].content]
    makes the classifier raise; it returns no decision. *)
Theorem C4_missing_content_raises (d : gmap string json) :
  d ≠ ∅ → (∀ c, ¬ has_content d c) →
  ∃ e, _is_message_blocked (JDict d) = Raise e.
Proof.
  intros _ Hno. destruct (messages_0_content_lacks d Hno) as [e He].
  exists e. by apply is_message_blocked_raise.
Qed.

Lemma C4_missing_content_raises_witness :
  legacy_choices ≠ ∅ ∧ (∀ c, ¬ has_content legacy_choices c) ∧
  ∃ e, _is_message_blocked (JDict legacy_choices) = Raise e.
Proof.
  assert (H1 : legacy_choices ≠ ∅) by apply map_non_empty_singleton.
  assert (H2 : ∀ c, ¬ has_content legacy_choices c).
  { intros c (m & rest & Hd & _). vm_compute in Hd. discriminate Hd. }
  split; [exact H1|]. split; [exact H2|].
  exact (C4_missing_content_raises legacy_choices H1 H2).
Defined.

(** The three legacy shapes named in the commented-out code. *)
Example legacy_shapes_raise :
  _is_message_blocked (JDict legacy_choices) = Raise KeyError ∧
  _is_message_blocked (JDict {[ "response" := JStr "hello" ]}) = Raise KeyError ∧
  _is_message_blocked (JDict {[ "content" := JStr "hello" ]}) = Raise KeyError.
Proof. repeat split; reflexivity. Qed.




(** C1 as stated fails in two ways.  A text equal to the policy-table
    phrase of "Self-Harm Prevention" is not blocked at all, because the
    classifier's own list holds a longer phrase; and a text equal to the
    phrase of "Jailbreak Prevention" is blocked under the name carried by
    the response metadata, which takes precedence over the table. *)
Lemma C1_counterexample :
  (In (self_harm_key, "Self-Harm Prevention") policy_mapping ∧
   _is_message_blocked (reply self_harm_key) = Ok (false, JNull, JNull)) ∧
  (In (jailbreak_key, "Jailbreak Prevention") policy_mapping ∧
   _is_message_blocked
     (reply_with_metadata jailbreak_key (JDict {[ "violated_policy" := JStr "Custom Rail" ]}))
   = Ok (true, JStr ("Blocking phrase detected: " +:+ jailbreak_key), JStr "Custom Rail")).
Proof.
  split; (split; [|reflexivity]); unfold policy_mapping; simpl; tauto.
Qed.

(** C1, amended: when the response attributes no policy through its
    metadata and its text equals a phrase of the policy table that is also
    one of the classifier's blocking phrases, the classifier returns
    blocked with that phrase as the reason and the policy name the table
    maps it to. *)
Theorem C1_canonical_phrase_blocked (d : gmap string json) (phrase name : string) :
  has_content d (JStr phrase) →
  no_policy_metadata d →
  In (phrase, name) policy_mapping →
  In phrase blocking_phrases →
  _is_message_blocked (JDict d) =
    Ok (true, JStr ("Blocking phrase detected: " +:+ phrase), JStr name).
Proof.
  intros Hc Hmeta Hpm Hbp.
  rewrite (is_message_blocked_text _ _ Hc).
  rewrite (scan_blocking_phrases_tables _ _ _ Hmeta).
  clear Hc Hmeta d.
  unfold policy_mapping in Hpm. simpl in Hpm.
  repeat (destruct Hpm as [Hpm|Hpm];
    [ injection Hpm as <- <-;
      first [ vm_compute; reflexivity
            | exfalso; unfold blocking_phrases in Hbp; simpl in Hbp;
              repeat (destruct Hbp as [Hbp|Hbp]; [discriminate Hbp|]); exact Hbp ]
    | ]).
  destruct Hpm.
Qed.

Lemma C1_canonical_phrase_blocked_witness :
  let phrase := "I can't assist with attempts to bypass safety or moderation rules. Please ask a different question." in
  has_content bypass_reply (JStr phrase) ∧
  no_policy_metadata bypass_reply ∧
  In (phrase, "Safety Bypass Prevention") policy_mapping ∧
  In phrase blocking_phrases ∧
  _is_message_blocked (JDict bypass_reply) =
    Ok (true, JStr ("Blocking phrase detected: " +:+ phrase), JStr "Safety Bypass Prevention").
Proof.
  intros phrase.
  assert (H1 : has_content bypass_reply (JStr phrase)).
  { eexists _, _. split; reflexivity. }
  assert (H2 : no_policy_metadata bypass_reply) by (left; reflexivity).
  assert (H3 : In (phrase, "Safety Bypass Prevention") policy_mapping).
  { unfold policy_mapping. simpl. tauto. }
  assert (H4 : In phrase blocking_phrases).
  { unfold blocking_phrases. simpl. tauto. }
  split; [exact H1|]. split; [exact H2|]. split; [exact H3|]. split; [exact H4|].
  exact (C1_canonical_phrase_blocked bypass_reply phrase _ H1 H2 H3 H4).
Defined.

(** The three table phrases that are shortened forms of a blocking phrase
    are not blocked when they make up the whole text. *)
Example short_table_phrases_not_blocked :
  _is_message_blocked (reply self_harm_key) = Ok (false, JNull, JNull) ∧
  _is_message_blocked (reply "Please don't share sensitive personal information like passwords, credit cards, or social security numbers.")
  = Ok (false, JNull, JNull) ∧
  _is_message_blocked (reply "I'm here to have respectful conversations. Let's keep things constructive.")
  = Ok (false, JNull, JNull).
Proof. repeat split; reflexivity. Qed.

(** A long blocking phrase is attributed through the shorter table phrase
    it contains. *)
Example long_phrases_attributed :
  _is_message_blocked (reply "I'm sorry you're feeling this way. If you're in immediate danger, please contact your local emergency services. If you need someone to talk to, consider reaching out to a crisis hotline or a trusted person in your life.")
  = Ok (true, JStr "Blocking phrase detected: I'm sorry you're feeling this way. If you're in immediate danger, please contact your local emergency services. If you need someone to talk to, consider reaching out to a crisis hotline or a trusted person in your life.", JStr "Self-Harm Prevention").
Proof. reflexivity. Qed.

(** ** Configuration resolver *)

Section Resolver.

Variable http : list request → request → result json.

Lemma get_config_id_fetch_fails w e :
  Py.truthy (_config_id w) = false →
  _configs_cache w = JNull →
  http (issued w) GetConfigs = Raise e →
  _get_config_id http w = (Raise e, after_request w GetConfigs).
Proof.
  intros Hid Hcache Hget. unfold _get_config_id. unfold_M.
  rewrite Hid, Hcache. simpl. rewrite Hget. reflexivity.
Qed.

Lemma get_config_id_fetch_empty w :
  Py.truthy (_config_id w) = false →
  _configs_cache w = JNull →
  http (issued w) GetConfigs = Ok (JList []) →
  _get_config_id http w =
    (Raise no_configurations, with_cache (after_request w GetConfigs) (JList [])).
Proof.
  intros Hid Hcache Hget. unfold _get_config_id. unfold_M.
  rewrite Hid, Hcache. simpl. rewrite Hget. reflexivity.
Qed.

Lemma get_config_id_cached_empty w :
  Py.truthy (_config_id w) = false →
  _configs_cache w = JList [] →
  _get_config_id http w = (Raise no_configurations, w).
Proof.
  intros Hid Hcache. unfold _get_config_id. unfold_M.
  rewrite Hid, Hcache. simpl. rewrite Hcache. reflexivity.
Qed.

(** With no explicit id and an unpopulated cache, a resolution issues
    exactly one request, the fetch of the configurations. *)
Lemma get_config_id_issues_fetch w :
  Py.truthy (_config_id w) = false →
  _configs_cache w = JNull →
  issued (_get_config_id http w).2 = issued w ++ [GetConfigs].
Proof.
  intros Hid Hcache. unfold _get_config_id. unfold_M.
  rewrite Hid, Hcache. simpl.
  destruct (http (issued w) GetConfigs) as [cfg|e]; simpl; [|done].
  repeat (case_match; simplify_eq/=; try done).
Qed.

End Resolver.

(** C5 as stated fails for the empty list: the fetched list is stored in
    the cache before it is examined, so the first resolution raises with
    the cache holding [[]], and the second raises again without any new
    request. *)
Lemma C5_counterexample :
  let http := λ _ _, Ok (JList []) in
  let w1 := (_get_config_id http fresh_world).2 in
  let w2 := (_get_config_id http w1).2 in
  (_get_config_id http fresh_world).1 = Raise no_configurations ∧
  _configs_cache w1 = JList [] ∧
  issued w1 = [GetConfigs] ∧
  (_get_config_id http w1).1 = Raise no_configurations ∧
  issued w2 = [GetConfigs].
Proof. repeat split; reflexivity. Qed.

(** C5, amended: with no explicit id and an unpopulated cache, when the
    fetch itself raises, the resolver raises the same exception and leaves
    the cache unpopulated, and the next resolution issues the fetch again;
    when the fetch returns an empty list, the resolver raises "no
    configurations" with the empty list kept in the cache, and the next
    resolution raises the same error without issuing any request. *)
Theorem C5_resolution_failure (http : list request → request → result json)
    (w : World) :
  Py.truthy (_config_id w) = false →
  _configs_cache w = JNull →
  (∀ e, http (issued w) GetConfigs = Raise e →
     ∃ w1, _get_config_id http w = (Raise e, w1) ∧
           _configs_cache w1 = JNull ∧
           issued w1 = issued w ++ [GetConfigs] ∧
           issued (_get_config_id http w1).2 = issued w ++ [GetConfigs; GetConfigs]) ∧
  (http (issued w) GetConfigs = Ok (JList []) →
     ∃ w1, _get_config_id http w = (Raise no_configurations, w1) ∧
           _configs_cache w1 = JList [] ∧
           issued w1 = issued w ++ [GetConfigs] ∧
           _get_config_id http w1 = (Raise no_configurations, w1)).
Proof.
  intros Hid Hcache. split.
  - intros e Hget. exists (after_request w GetConfigs).
    split; [by apply get_config_id_fetch_fails|].
    split; [done|]. split; [done|].
    rewrite get_config_id_issues_fetch by done.
    simpl. by rewrite <- app_assoc.
  - intros Hget. exists (with_cache (after_request w GetConfigs) (JList [])).
    split; [by apply get_config_id_fetch_empty|].
    split; [done|]. split; [done|].
    by apply get_config_id_cached_empty.
Qed.

Lemma C5_resolution_failure_witness :
  (∃ w1, _get_config_id http_down fresh_world
           = (Raise (Requests ConnectionError "connection refused"), w1) ∧
         _configs_cache w1 = JNull ∧
         issued w1 = [GetConfigs] ∧
         issued (_get_config_id http_down w1).2 = [GetConfigs; GetConfigs]) ∧
  (∃ w1, _get_config_id http_no_configs fresh_world = (Raise no_configurations, w1) ∧
         _configs_cache w1 = JList [] ∧
         issued w1 = [GetConfigs] ∧
         _get_config_id http_no_configs w1 = (Raise no_configurations, w1)).
Proof.
  split.
  - exact (proj1 (C5_resolution_failure http_down fresh_world eq_refl eq_refl)
             _ eq_refl).
  - exact (proj2 (C5_resolution_failure http_no_configs fresh_world eq_refl eq_refl)
             eq_refl).
Defined.

(** ** Hook pipeline *)

Section Hooks.

Variable http : list request → request → result json.
Variable should_run_guardrail : request_data → GuardrailEventHooks → bool.
Variable should_proceed_based_on_metadata : request_data → string → bool.
Variable str_value : json → string.
Variable str_exn : exn → string.

Local Abbreviation pre_hook :=
  (async_pre_call_hook http should_run_guardrail should_proceed_based_on_metadata
     str_value str_exn).
Local Abbreviation post_hook :=
  (async_post_call_success_hook http should_run_guardrail
     should_proceed_based_on_metadata str_value str_exn).

(** The classification client touches neither the request dict, nor the
    response objects, nor the name of the guardrail. *)
Lemma check_message_with_api_frame messages w :
  let w' := (_check_message_with_api http messages w).2 in
  guardrail_name w' = guardrail_name w ∧ data w' = data w ∧ heap w' = heap w.
Proof.
  unfold _check_message_with_api, _get_config_id. unfold_M. simpl.
  repeat (case_match; simplify_eq/=; try done).
Qed.

Lemma log_error w reason :
  _log_guardrail_result "error" reason JNull JNull JNull w
  = (Ok (), log_appended w (error_entry w reason)).
Proof. reflexivity. Qed.

(** Whatever the body of the pre-call hook raises, short of the block
    signal, is logged with status "error" and turned into allow. *)
Lemma pre_call_fail_open w w1 e :
  should_run_guardrail (data w) pre_call = true →
  should_proceed_based_on_metadata (data w) GUARDRAIL_NAME = true →
  pre_call_body http str_value w = (Raise e, w1) →
  Str.contains "GuardrailRaisedException" (Py.type_str e) = false →
  pre_hook w = (Ok (), log_appended w1 (error_entry w1 ("Error: " +:+ str_exn e))).
Proof.
  intros Hrun Hproceed Hbody Htype.
  unfold async_pre_call_hook. unfold_M.
  rewrite Hrun, Hproceed. simpl. rewrite Hbody, Htype. reflexivity.
Qed.

Lemma user_message_in_truthy messages user_message :
  user_message_in messages = Ok user_message →
  Py.truthy user_message = true →
  Py.truthy messages = true.
Proof.
  destruct messages as [| | |s|l|d]; try done.
  - simpl. destruct (negb (String.eqb s "")); [done|]. by intros [= <-].
  - destruct l as [|x l]; [|done]. by intros [= <-].
  - simpl. destruct (negb (size d =? 0)%nat); [done|]. by intros [= <-].
Qed.

Lemma pre_call_body_client_raises w w1 user_message e :
  user_message_in (request_messages (data w)) = Ok user_message →
  Py.truthy user_message = true →
  (∃ p, Py.slice100 user_message = Ok p) →
  _check_message_with_api http [api_message "user" user_message] w = (Raise e, w1) →
  pre_call_body http str_value w = (Raise e, w1).
Proof.
  intros Hfound Htruthy [p Hslice] Hclient.
  unfold pre_call_body. unfold_M.
  rewrite (user_message_in_truthy _ _ Hfound Htruthy), Hfound. simpl.
  rewrite Htruthy, Hslice. simpl. by rewrite Hclient.
Qed.

Lemma transport_error_is_not_block_signal cls msg :
  Str.contains "GuardrailRaisedException" (Py.type_str (Requests cls msg)) = false.
Proof. by destruct cls. Qed.

Lemma last_user_message_skip (later rest : list json) :
  Forall other_role_message later →
  last_user_message (later ++ rest) = last_user_message rest.
Proof.
  induction 1 as [|msg later (d & -> & Hmsg) _ IH]; [done|].
  rewrite <- app_comm_cons. simpl.
  destruct (d !! "role") as [[| | |role| |]|] eqn:Hrole; try done.
  simpl. destruct (String.eqb role "user") eqn:Heq; [|done].
  apply String.eqb_eq in Heq. by subst role.
Qed.

Lemma last_user_message_found (earlier later : list json) (m : gmap string json) :
  m !! "role" = Some (JStr "user") →
  Forall other_role_message later →
  last_user_message (reverse (earlier ++ JDict m :: later))
  = Ok (default (JStr "") (m !! "content")).
Proof.
  intros Hrole Hlater.
  rewrite reverse_app, reverse_cons, <- app_assoc.
  rewrite last_user_message_skip by by apply Forall_reverse.
  simpl. rewrite Hrole. simpl. by destruct (m !! "content").
Qed.

Lemma pre_hook_of_body_allow w :
  pre_call_body http str_value w = (Ok (), w) → pre_hook w = (Ok (), w).
Proof.
  intros Hbody. unfold async_pre_call_hook. unfold_M.
  destruct (should_run_guardrail _ _); [|done].
  destruct (should_proceed_based_on_metadata _ _); [|done].
  simpl. by rewrite Hbody.
Qed.

Lemma pre_call_body_no_messages w :
  Py.truthy (request_messages (data w)) = false →
  pre_call_body http str_value w = (Ok (), w).
Proof. intros Hfalsy. unfold pre_call_body. unfold_M. by rewrite Hfalsy. Qed.

Lemma pre_call_body_no_user_text w user_message :
  user_message_in (request_messages (data w)) = Ok user_message →
  Py.truthy user_message = false →
  pre_call_body http str_value w = (Ok (), w).
Proof.
  intros Hfound Hfalsy. unfold pre_call_body. unfold_M.
  destruct (Py.truthy (request_messages (data w))); [|done].
  simpl. rewrite Hfound. simpl. by rewrite Hfalsy.
Qed.

(** C2: when the gates let the pre-call hook run, the most recent user
    message has content to check, and the classification client raises a
    transport error (from the fetch of the configurations or from the
    classification request), the hook returns allow, raises no block
    signal, and logs one result with status "error". *)
Theorem C2_transport_error_fails_open (w w1 : World) (user_message : json) cls msg :
  should_run_guardrail (data w) pre_call = true →
  should_proceed_based_on_metadata (data w) GUARDRAIL_NAME = true →
  user_message_in (request_messages (data w)) = Ok user_message →
  Py.truthy user_message = true →
  (∃ p, Py.slice100 user_message = Ok p) →
  _check_message_with_api http [api_message "user" user_message] w
    = (Raise (Requests cls msg), w1) →
  pre_hook w =
    (Ok (), log_appended w1
              (LogData (guardrail_name w) "error"
                 ("Error: " +:+ str_exn (Requests cls msg)) None None None)) ∧
  data w1 = data w.
Proof.
  intros Hrun Hproceed Hfound Htruthy Hslice Hclient.
  pose proof (check_message_with_api_frame [api_message "user" user_message] w)
    as Hframe.
  rewrite Hclient in Hframe. simpl in Hframe. destruct Hframe as (Hname & Hdata & _).
  split; [|done].
  rewrite <- Hname.
  apply pre_call_fail_open; [done..| |apply transport_error_is_not_block_signal].
  by apply (pre_call_body_client_raises w w1 user_message).
Qed.

(** C10 as stated fails on a malformed list: the most recent message of
    role "user" has empty content, but the list ends with an entry that is
    not a message dict; the loop meets that entry first, [msg.get] raises,
    and the handler writes a result with status "error" to the log. *)
Lemma C10_counterexample :
  let w := malformed_after_empty_question in
  data_messages (data w) = Some (JList [JDict (user_says ""); JNum 42]) ∧
  async_pre_call_hook http_timeout always proceed show_value show_exn w
  = (Ok (), log_appended w (LogData "nemo" "error" "Error: " None None None)).
Proof. split; reflexivity. Qed.

(** C10, amended: when the message list is absent or empty, or it is a
    list whose most recent message of role "user" has no content or a
    falsy one and is followed by message dicts only (whatever the entries
    before it hold), the pre-call hook returns allow and leaves the world
    as it was: no request issued, no result logged, no header written. *)
Theorem C10_nothing_to_check_no_effects (w : World) :
  data_messages (data w) = None ∨
  data_messages (data w) = Some (JList []) ∨
  (∃ earlier m later,
      data_messages (data w) = Some (JList (earlier ++ JDict m :: later)) ∧
      m !! "role" = Some (JStr "user") ∧
      Forall other_role_message later ∧
      (m !! "content" = None ∨
       ∃ v, m !! "content" = Some v ∧ Py.truthy v = false)) →
  pre_hook w = (Ok (), w).
Proof.
  intros Hcase. apply pre_hook_of_body_allow.
  destruct Hcase as [H | [H | (earlier & m & later & H & Hrole & Hlater & Hcontent)]].
  - apply pre_call_body_no_messages. unfold request_messages. by rewrite H.
  - apply pre_call_body_no_messages. unfold request_messages. by rewrite H.
  - apply (pre_call_body_no_user_text w (default (JStr "") (m !! "content"))).
    + unfold request_messages. rewrite H. simpl.
      by apply last_user_message_found.
    + by destruct Hcontent as [-> | (v & -> & Hv)].
Qed.

(** The post-call hook never raises: it always returns the reference it
    was given. *)
Lemma post_hook_returns_response (response : nat) (w : World) :
  (post_hook response w).1 = Ok response.
Proof.
  unfold async_post_call_success_hook. unfold_M.
  destruct (should_run_guardrail _ _); [|done].
  destruct (should_proceed_based_on_metadata _ _); [|done].
  simpl. destruct (post_call_body _ _ _ _) as [[r|e] w'] eqn:Hbody; [|done].
  simpl. f_equal.
  unfold post_call_body in Hbody. unfold_M.
  repeat (case_match; simplify_eq/=; try done).
Qed.

(** C6: when the gates let the post-call hook run, the first choice of the
    response object holds content to check, the classification client
    answers, and the classifier decides blocked, the hook logs one result
    with status "blocked", replaces the content of the first choice of
    that same object with the text "I apologize, but I cannot provide that
    response as it violates content safety policies. (Policy: P)", where P
    is the attributed policy name, or "Content Safety" when the classifier
    attributed none (a falsy policy name), records the guardrail in the
    header, and returns the reference it was given; it does not raise. *)
Theorem C6_blocked_response_rewritten (w w1 : World) (response : nat)
    (choice : Choices) (rest : list Choices) (m : Message) (v p : json)
    (api_response reason policy_name : json) :
  should_run_guardrail (data w) post_call = true →
  should_proceed_based_on_metadata (data w) GUARDRAIL_NAME = true →
  heap w !! response = Some {| choices := Some (choice :: rest) |} →
  message choice = Some m →
  content m = Some v →
  Py.truthy v = true →
  Py.slice100 v = Ok p →
  _check_message_with_api http [api_message "assistant" v] w = (Ok api_response, w1) →
  _is_message_blocked api_response = Ok (true, reason, policy_name) →
  let shown := format str_value (Py.or policy_name (JStr "Content Safety")) in
  let text :=
    "I apologize, but I cannot provide that response as it violates content safety policies. (Policy: "
    +:+ shown +:+ ")" in
  let rewritten :=
    {| choices := Some ({| message := Some {| content := Some (JStr text) |} |} :: rest) |} in
  let entry :=
    LogData (guardrail_name w) "blocked"
      ("LLM response blocked by NeMo Guardrails: " +:+ format str_value reason)
      (if Py.truthy policy_name then Some policy_name else None)
      None (Some p) in
  post_hook response w =
    (Ok response, header_appended (with_object (log_appended w1 entry) response rewritten)) ∧
  data w1 = data w ∧ heap w1 = heap w ∧
  (Py.truthy policy_name = false → shown = "Content Safety") ∧
  (∀ name, policy_name = JStr name → name ≠ "" → shown = name).
Proof.
  intros Hrun Hproceed Hheap Hmessage Hcontent Htruthy Hslice Hclient Hblocked.
  pose proof (check_message_with_api_frame [api_message "assistant" v] w) as Hframe.
  rewrite Hclient in Hframe. simpl in Hframe. destruct Hframe as (Hname & Hdata & Hheap1).
  intros shown text rewritten entry.
  split; [|split; [done|split; [done|split]]].
  - unfold async_post_call_success_hook. unfold_M.
    rewrite Hrun, Hproceed. simpl.
    unfold post_call_body. unfold_M.
    rewrite Hheap. simpl. rewrite Hmessage. destruct m as [c]. simpl in Hcontent.
    subst c. rewrite Htruthy, Hslice. simpl. rewrite Hclient, Hblocked. simpl.
    unfold _log_guardrail_result, preview,
      add_standard_logging_guardrail_information_to_request_data,
      rewrite_content, add_guardrail_to_applied_guardrails_header.
    unfold_M. simpl. rewrite Htruthy, Hslice. simpl.
    pose proof Hheap as Hheap'. rewrite <- Hheap1 in Hheap'.
    rewrite Hheap', Hmessage. simpl.
    unfold header_appended, with_object, log_appended, entry. simpl.
    rewrite Hname. reflexivity.
  - intros Hfalsy. unfold shown, Py.or. by rewrite Hfalsy.
  - intros name -> Hne. unfold shown. by destruct name.
Qed.

End Hooks.

(** *** Concrete runs *)

Lemma C2_transport_error_fails_open_witness :
  let w := asking_world in
  let w1 := (_check_message_with_api http_timeout [api_message "user" (JStr "hi")] w).2 in
  always (data w) pre_call = true ∧
  proceed (data w) GUARDRAIL_NAME = true ∧
  user_message_in (request_messages (data w)) = Ok (JStr "hi") ∧
  Py.truthy (JStr "hi") = true ∧
  (∃ p, Py.slice100 (JStr "hi") = Ok p) ∧
  _check_message_with_api http_timeout [api_message "user" (JStr "hi")] w
    = (Raise (Requests Timeout "timed out"), w1) ∧
  async_pre_call_hook http_timeout always proceed show_value show_exn w =
    (Ok (), log_appended w1
              (LogData "nemo" "error" "Error: timed out" None None None)) ∧
  data w1 = data w.
Proof.
  intros w w1.
  assert (H1 : always (data w) pre_call = true) by reflexivity.
  assert (H2 : proceed (data w) GUARDRAIL_NAME = true) by reflexivity.
  assert (H3 : user_message_in (request_messages (data w)) = Ok (JStr "hi"))
    by reflexivity.
  assert (H4 : Py.truthy (JStr "hi") = true) by reflexivity.
  assert (H5 : ∃ p, Py.slice100 (JStr "hi") = Ok p) by (eexists; reflexivity).
  assert (H6 : _check_message_with_api http_timeout [api_message "user" (JStr "hi")] w
               = (Raise (Requests Timeout "timed out"), w1)) by reflexivity.
  split; [exact H1|]. split; [exact H2|]. split; [exact H3|]. split; [exact H4|].
  split; [exact H5|]. split; [exact H6|].
  exact (C2_transport_error_fails_open http_timeout always proceed show_value show_exn
           w w1 (JStr "hi") Timeout "timed out" H1 H2 H3 H4 H5 H6).
Defined.

Lemma C10_nothing_to_check_no_effects_witness :
  let w := empty_last_question in
  (data_messages (data w) = None ∨
   data_messages (data w) = Some (JList []) ∨
   (∃ earlier m later,
       data_messages (data w) = Some (JList (earlier ++ JDict m :: later)) ∧
       m !! "role" = Some (JStr "user") ∧
       Forall other_role_message later ∧
       (m !! "content" = None ∨
        ∃ v, m !! "content" = Some v ∧ Py.truthy v = false))) ∧
  async_pre_call_hook http_timeout always proceed show_value show_exn w = (Ok (), w).
Proof.
  intros w.
  assert (H : data_messages (data w) = None ∨
              data_messages (data w) = Some (JList []) ∨
              (∃ earlier m later,
                  data_messages (data w) = Some (JList (earlier ++ JDict m :: later)) ∧
                  m !! "role" = Some (JStr "user") ∧
                  Forall other_role_message later ∧
                  (m !! "content" = None ∨
                   ∃ v, m !! "content" = Some v ∧ Py.truthy v = false))).
  { right. right.
    exists [JDict (user_says "an earlier question")], (user_says ""),
      [JDict (assistant_says "an answer")].
    split; [reflexivity|]. split; [reflexivity|]. split.
    - constructor; [|constructor]. eexists. split; [reflexivity|].
      intros Hrole. vm_compute in Hrole. discriminate Hrole.
    - right. exists (JStr ""). split; reflexivity. }
  split; [exact H|].
  exact (C10_nothing_to_check_no_effects http_timeout always proceed show_value show_exn
           w H).
Defined.

Lemma C6_blocked_response_rewritten_witness :
  let w := answered_world in
  let w1 := (_check_message_with_api http_refuses
               [api_message "assistant" (JStr "some harmful text")] w).2 in
  let entry :=
    LogData "nemo" "blocked"
      "LLM response blocked by NeMo Guardrails: Blocking phrase detected: I cannot assist with that"
      (Some (JStr "Content Policy Violation")) None (Some (JStr "some harmful text")) in
  let rewritten :=
    answer "I apologize, but I cannot provide that response as it violates content safety policies. (Policy: Content Policy Violation)" in
  heap w !! 0 = Some (answer "some harmful text") ∧
  _check_message_with_api http_refuses
    [api_message "assistant" (JStr "some harmful text")] w
    = (Ok (reply "I cannot assist with that"), w1) ∧
  _is_message_blocked (reply "I cannot assist with that")
    = Ok (true, JStr "Blocking phrase detected: I cannot assist with that",
          JStr "Content Policy Violation") ∧
  async_post_call_success_hook http_refuses always proceed show_value show_exn 0 w
    = (Ok 0, header_appended (with_object (log_appended w1 entry) 0 rewritten)).
Proof.
  intros w w1 entry rewritten.
  assert (H3 : heap w !! 0 = Some (answer "some harmful text")) by reflexivity.
  assert (H8 : _check_message_with_api http_refuses
                 [api_message "assistant" (JStr "some harmful text")] w
               = (Ok (reply "I cannot assist with that"), w1)) by reflexivity.
  assert (H9 : _is_message_blocked (reply "I cannot assist with that")
               = Ok (true, JStr "Blocking phrase detected: I cannot assist with that",
                     JStr "Content Policy Violation")) by reflexivity.
  split; [exact H3|]. split; [exact H8|]. split; [exact H9|].
  exact (proj1 (C6_blocked_response_rewritten http_refuses always proceed show_value
                  show_exn w w1 0 _ [] _ _ (JStr "some harmful text") _ _ _
                  eq_refl eq_refl H3 eq_refl eq_refl eq_refl eq_refl H8 H9)).
Defined.

(** ** Local detectors *)

Module ActionsFacts.
Import Actions.

Lemma template_contains_keyword (keyword pattern : string) :
  In pattern (instruction_patterns keyword) → Str.contains keyword pattern = true.
Proof.
  unfold instruction_patterns. simpl.
  intros [<- | [<- | [<- | [<- | [<- | []]]]]]; apply contains_spec.
  - exists "how to ", "". by rewrite append_nil_r.
  - exists "ways to ", "". by rewrite append_nil_r.
  - exists "steps to ", "". by rewrite append_nil_r.
  - by exists "to ", " someone".
  - by exists "", " by".
Qed.

Lemma scan_patterns_true message_lower patterns :
  scan_patterns message_lower patterns = true ↔
  ∃ pattern, In pattern patterns ∧ Str.contains pattern message_lower = true.
Proof.
  induction patterns as [|p ps IH]; simpl.
  - split; [done|]. by intros (? & [] & _).
  - destruct (Str.contains p message_lower) eqn:Hp.
    + split; [|done]. intros _. exists p. auto.
    + rewrite IH. split; intros (q & Hq & Hc); exists q.
      * auto.
      * destruct Hq as [<-|Hq]; [congruence|auto].
Qed.

Lemma scan_keywords_cons message_lower keyword keywords :
  scan_keywords message_lower (keyword :: keywords) =
    if Str.contains keyword message_lower then
      if scan_patterns message_lower (instruction_patterns keyword) then true
      else scan_keywords message_lower keywords
    else scan_keywords message_lower keywords.
Proof. reflexivity. Qed.

Lemma scan_keywords_true message_lower keywords :
  scan_keywords message_lower keywords = true ↔
  ∃ keyword pattern, In keyword keywords ∧
    In pattern (instruction_patterns keyword) ∧
    Str.contains pattern message_lower = true.
Proof.
  induction keywords as [|k ks IH].
  - simpl. split; [done|]. by intros (? & ? & [] & _).
  - rewrite scan_keywords_cons.
    destruct (scan_patterns message_lower (instruction_patterns k)) eqn:Hk.
    + apply scan_patterns_true in Hk as (p & Hp & Hc).
      rewrite (contains_trans k p message_lower
                 (template_contains_keyword k p Hp) Hc).
      split; [|done]. intros _. exists k, p. split; [by left|done].
    + assert (scan_keywords message_lower ks = true ↔
              ∃ keyword pattern, In keyword (k :: ks) ∧
                In pattern (instruction_patterns keyword) ∧
                Str.contains pattern message_lower = true) as Hiff.
      { rewrite IH. split; intros (k' & p & Hk' & Hp & Hc); exists k', p.
        - split; [by right|done].
        - destruct Hk' as [<-|Hk']; [|done].
          assert (scan_patterns message_lower (instruction_patterns k) = true)
            by (apply scan_patterns_true; eauto).
          congruence. }
      by destruct (Str.contains k message_lower).
Qed.

Lemma bot_message_lower_text (ctx : gmap string json) (bot_message : string) :
  ctx !! "bot_message" = Some (JStr bot_message) →
  bot_message ≠ "" →
  bot_message_lower (Some ctx) = Ok (Some (Str.lower bot_message)).
Proof.
  intros Hctx Hne. unfold bot_message_lower.
  rewrite (truthy_dict_lookup _ _ _ Hctx). simpl. rewrite Hctx.
  apply String.eqb_neq in Hne. simpl. rewrite Hne. simpl. by rewrite Hne.
Qed.

End ActionsFacts.

(** C9: for a context whose [bot_message] is a non-empty text, the
    detector answers true exactly when the lowercased text contains, for
    one of the 27 harmful keywords K, one of the five instructional
    phrases "how to K", "ways to K", "steps to K", "to K someone" or
    "K by".  A keyword on its own ("violence") gives false; a keyword in
    an instructional phrase ("how to kill") gives true. *)
Theorem C9_keyword_needs_template (ctx : gmap string json) (bot_message : string) :
  ctx !! "bot_message" = Some (JStr bot_message) →
  bot_message ≠ "" →
  let text := Str.lower bot_message in
  let instructs (keyword : string) : Prop :=
    Str.contains ("how to " +:+ keyword) text = true ∨
    Str.contains ("ways to " +:+ keyword) text = true ∨
    Str.contains ("steps to " +:+ keyword) text = true ∨
    Str.contains ("to " +:+ keyword +:+ " someone") text = true ∨
    Str.contains (keyword +:+ " by") text = true in
  let keywords : list string :=
    ["violence"; "violent"; "attack"; "hurt"; "harm"; "kill"; "murder";
     "suicide"; "self-harm"; "cutting";
     "illegal"; "crime"; "criminal";
     "hack"; "exploit"; "malware"; "virus";
     "drug"; "cocaine"; "heroin"; "meth";
     "weapon"; "bomb"; "explosive";
     "discriminate"; "racist"; "sexist"] in
  ((∀ keyword, In keyword keywords → ¬ instructs keyword) →
   Actions.is_harmful_content (Some ctx) = Ok false) ∧
  ((∃ keyword, In keyword keywords ∧ instructs keyword) →
   Actions.is_harmful_content (Some ctx) = Ok true).
Proof.
  intros Hctx Hne text instructs keywords. unfold Actions.is_harmful_content.
  rewrite (ActionsFacts.bot_message_lower_text _ _ Hctx Hne).
  change (Ok (Some (Str.lower bot_message)) ≫= _)
    with (Ok (A:=bool) (Actions.scan_keywords text Actions.harmful_keywords)).
  assert (Hpatterns : ∀ keyword,
            instructs keyword ↔
            ∃ pattern, In pattern (Actions.instruction_patterns keyword) ∧
                       Str.contains pattern text = true).
  { intros keyword. unfold instructs, Actions.instruction_patterns. split.
    - intros [H | [H | [H | [H | H]]]]; eexists; (split; [|exact H]);
        simpl; tauto.
    - intros (pattern & Hin & H). simpl in Hin.
      destruct Hin as [<- | [<- | [<- | [<- | [<- | []]]]]]; tauto. }
  split.
  - intros Hnone. f_equal. apply not_true_is_false.
    intros (k & pat & Hk & Hp & Hc)%ActionsFacts.scan_keywords_true.
    apply (Hnone k Hk), Hpatterns. eauto.
  - intros (k & Hk & Hi). f_equal. apply ActionsFacts.scan_keywords_true.
    apply Hpatterns in Hi as (pat & Hp & Hc). eauto.
Qed.

Lemma C9_keyword_needs_template_witness :
  Str.contains "violence" (Str.lower "violence") = true ∧
  Actions.is_harmful_content (Some (bot "violence")) = Ok false ∧
  Actions.is_harmful_content (Some (bot "how to kill")) = Ok true.
Proof.
  split; [reflexivity|]. split.
  - refine (proj1 (C9_keyword_needs_template (bot "violence") "violence" eq_refl _) _).
    + discriminate.
    + intros keyword Hk Hi.
      assert (Hall : forallb (λ k,
                  negb (Str.contains ("how to " +:+ k) "violence"
                        || Str.contains ("ways to " +:+ k) "violence"
                        || Str.contains ("steps to " +:+ k) "violence"
                        || Str.contains ("to " +:+ k +:+ " someone") "violence"
                        || Str.contains (k +:+ " by") "violence"))
                Actions.harmful_keywords = true) by (vm_compute; reflexivity).
      pose proof (proj1 (forallb_forall _ _) Hall keyword Hk) as Hkw.
      apply negb_true_iff in Hkw.
      change (Str.lower "violence") with "violence" in Hi.
      destruct Hi as [H | [H | [H | [H | H]]]]; rewrite H in Hkw;
        by rewrite ?orb_true_r in Hkw.
  - refine (proj2 (C9_keyword_needs_template (bot "how to kill") "how to kill" eq_refl _) _).
    + discriminate.
    + exists "kill". split; [simpl; tauto|]. left. reflexivity.
Defined.

(** ** Regular expressions *)

Module ReFacts.
Import Re.

Lemma append_eq_nil (a b : string) : a +:+ b = "" → a = "" ∧ b = "".
Proof. destruct a; [done|]. by rewrite append_cons. Qed.

Lemma nullable_spec (r : regex) : nullable r = true ↔ matches r "".
Proof.
  induction r as [| | | |r1 IH1 r2 IH2|r1 IH1 r2 IH2|r IH]; simpl.
  - split; [done|]. inversion 1.
  - split; [constructor|done].
  - split; [done|]. inversion 1.
  - split; [done|]. inversion 1.
  - rewrite andb_true_iff, IH1, IH2. split.
    + intros [H1 H2]. exact (MCat _ _ "" "" H1 H2).
    + inversion 1 as [| | |? ? s1 s2 H1 H2 Hr Hs| | | |]; subst.
      apply append_eq_nil in Hs as [-> ->]. done.
  - rewrite orb_true_iff, IH1, IH2. split.
    + intros [H|H]; [by apply MAltL|by apply MAltR].
    + inversion 1; subst; auto.
  - split; [constructor|done].
Qed.

(** A non-empty match of [Star r] starts with a non-empty match of [r]. *)
Lemma star_cons (r : regex) (c : ascii) (s : string) :
  matches (Star r) (String c s) →
  ∃ s1 s2, s = s1 +:+ s2 ∧ matches r (String c s1) ∧ matches (Star r) s2.
Proof.
  intros H. remember (Star r) as r' eqn:Hr. remember (String c s) as t eqn:Ht.
  revert Hr Ht.
  induction H as [| | | | | | |r0 s1 s2 H1 _ H2 IH2]; try done.
  intros [= ->] Ht. destruct s1 as [|x s1].
  - rewrite append_nil in Ht. by apply IH2.
  - rewrite append_cons in Ht. injection Ht as -> <-. by exists s1, s2.
Qed.

Lemma deriv_spec (c : ascii) (r : regex) (s : string) :
  matches (deriv c r) s ↔ matches r (String c s).
Proof.
  revert s. induction r as [| |a| |r1 IH1 r2 IH2|r1 IH1 r2 IH2|r IH]; intros s; simpl.
  - split; inversion 1.
  - split; inversion 1.
  - destruct (Ascii.eqb_spec a c) as [->|Hne].
    + split; inversion 1; subst; constructor.
    + split; inversion 1; subst; done.
  - destruct (is_digit c) eqn:Hc.
    + split; inversion 1; subst; by constructor.
    + split; inversion 1; subst; congruence.
  - assert (Hcat : matches (Cat (deriv c r1) r2) s ↔
                   ∃ s1 s2, s = s1 +:+ s2 ∧ matches r1 (String c s1) ∧ matches r2 s2).
    { split.
      - inversion 1 as [| | |? ? s1 s2 H1 H2| | | |]; subst.
        exists s1, s2. by rewrite <- IH1.
      - intros (s1 & s2 & -> & H1 & H2). constructor; [by apply IH1|done]. }
    assert (Hsplit : matches (Cat r1 r2) (String c s) ↔
                     (matches r1 "" ∧ matches r2 (String c s)) ∨
                     ∃ s1 s2, s = s1 +:+ s2 ∧ matches r1 (String c s1) ∧ matches r2 s2).
    { split.
      - inversion 1 as [| | |? ? s1 s2 H1 H2 Hr Hs| | | |]; subst.
        destruct s1 as [|x s1].
        + rewrite append_nil in Hs. subst s2. by left.
        + rewrite append_cons in Hs. injection Hs as -> <-. right. by exists s1, s2.
      - intros [[H1 H2] | (s1 & s2 & -> & H1 & H2)].
        + exact (MCat _ _ "" _ H1 H2).
        + exact (MCat _ _ (String c s1) _ H1 H2). }
    rewrite Hsplit. destruct (nullable r1) eqn:Hn.
    + apply nullable_spec in Hn. split.
      * inversion 1; subst; [right; by apply Hcat|left; by rewrite <- IH2].
      * intros [[_ H2] | H]; [apply MAltR; by apply IH2|apply MAltL; by apply Hcat].
    + rewrite Hcat. split; [by right|].
      intros [[H1 _] | H]; [|done]. apply nullable_spec in H1. congruence.
  - split.
    + inversion 1; subst; [apply MAltL; by apply IH1|apply MAltR; by apply IH2].
    + inversion 1; subst; [apply MAltL; by apply IH1|apply MAltR; by apply IH2].
  - split.
    + inversion 1 as [| | |? ? s1 s2 H1 H2| | | |]; subst.
      exact (MStarApp _ (String c s1) _ (proj1 (IH _) H1) H2).
    + intros (s1 & s2 & -> & H1 & H2)%star_cons.
      constructor; [by apply IH|done].
Qed.

(** [match_] finds a matching prefix. *)
Lemma match_spec (r : regex) (s : string) :
  match_ r s = true ↔ ∃ p q, s = p +:+ q ∧ matches r p.
Proof.
  revert r. induction s as [|c s IH]; intros r; simpl.
  - rewrite orb_false_r, nullable_spec. split.
    + intros H. by exists "", "".
    + intros (p & q & Hs & H). symmetry in Hs.
      apply append_eq_nil in Hs as [-> _]. done.
  - rewrite orb_true_iff, nullable_spec, IH. split.
    + intros [H | (p & q & -> & H)].
      * by exists "", (String c s).
      * exists (String c p), q. split; [done|]. by apply deriv_spec.
    + intros (p & q & Hs & H). destruct p as [|x p].
      * by left.
      * rewrite append_cons in Hs. injection Hs as -> ->.
        right. exists p, q. split; [done|]. by apply deriv_spec.
Qed.

(** [search] finds a matching substring. *)
Lemma search_spec (r : regex) (s : string) :
  search r s = true ↔ ∃ a p b, s = a +:+ p +:+ b ∧ matches r p.
Proof.
  induction s as [|c s IH].
  - change (search r "") with (match_ r "" || false).
    rewrite orb_false_r, match_spec. split.
    + intros (p & q & Hs & H). by exists "", p, q.
    + intros (a & p & b & Hs & H). destruct a as [|x a]; [by exists p, b|].
      by rewrite append_cons in Hs.
  - change (search r (String c s)) with (match_ r (String c s) || search r s).
    rewrite orb_true_iff, match_spec, IH. split.
    + intros [(p & q & Hs & H) | (a & p & b & -> & H)].
      * by exists "", p, q.
      * by exists (String c a), p, b.
    + intros (a & p & b & Hs & H). destruct a as [|x a].
      * left. by exists p, b.
      * rewrite append_cons in Hs. injection Hs as -> ->. right. by exists a, p, b.
Qed.

Lemma lower_char_not_upper (c : ascii) : Str.is_upper (Str.lower_char c) = false.
Proof. by destruct c as [[] [] [] [] [] [] [] []]. Qed.

Lemma lower_no_upper (s : string) : no_upper (Str.lower s) = true.
Proof.
  induction s as [|c s IH]; [done|].
  simpl. by rewrite lower_char_not_upper, IH.
Qed.

Lemma void_not_nullable (r : regex) : void r = true → nullable r = false.
Proof.
  induction r as [| | | |r1 IH1 r2 IH2|r1 IH1 r2 IH2|r IH]; simpl; try done.
  - intros [H|H]%orb_true_iff; [rewrite (IH1 H)|rewrite (IH2 H)]; [done|].
    apply andb_false_r.
  - intros [H1 H2]%andb_true_iff. by rewrite (IH1 H1), (IH2 H2).
Qed.

Lemma void_deriv (c : ascii) (r : regex) : void r = true → void (deriv c r) = true.
Proof.
  induction r as [| | | |r1 IH1 r2 IH2|r1 IH1 r2 IH2|r IH]; simpl; try done.
  - intros [H|H]%orb_true_iff.
    + rewrite (void_not_nullable _ H). simpl. by rewrite (IH1 H).
    + destruct (nullable r1); simpl; rewrite H, ?(IH2 H); by rewrite ?orb_true_r.
  - intros [H1 H2]%andb_true_iff. by rewrite (IH1 H1), (IH2 H2).
Qed.

Lemma match_void (r : regex) (s : string) : void r = true → match_ r s = false.
Proof.
  revert r. induction s as [|c s IH]; intros r Hr; simpl.
  - by rewrite (void_not_nullable _ Hr).
  - rewrite (void_not_nullable _ Hr). simpl. by apply IH, void_deriv.
Qed.

Lemma starts_upper_not_nullable (r : regex) : starts_upper r = true → nullable r = false.
Proof.
  induction r as [| | | |r1 IH1 r2 IH2|r1 IH1 r2 IH2|r IH]; simpl; try done.
  - intros H. by rewrite (IH1 H).
  - intros [H1 H2]%andb_true_iff. by rewrite (IH1 H1), (IH2 H2).
Qed.

Lemma starts_upper_deriv (c : ascii) (r : regex) :
  starts_upper r = true → Str.is_upper c = false → void (deriv c r) = true.
Proof.
  intros Hr Hc.
  induction r as [| |a| |r1 IH1 r2 IH2|r1 IH1 r2 IH2|r IH]; simpl in *; try done.
  - destruct (Ascii.eqb_spec a c) as [->|_]; [congruence|done].
  - rewrite (starts_upper_not_nullable _ Hr). simpl. by rewrite (IH1 Hr).
  - apply andb_true_iff in Hr as [H1 H2]. by rewrite (IH1 H1), (IH2 H2).
Qed.

Lemma match_starts_upper (r : regex) (s : string) :
  starts_upper r = true → no_upper s = true → match_ r s = false.
Proof.
  intros Hr Hs. destruct s as [|c s]; simpl.
  - by rewrite (starts_upper_not_nullable _ Hr).
  - rewrite (starts_upper_not_nullable _ Hr). simpl.
    simpl in Hs. apply andb_true_iff in Hs as [Hc%negb_true_iff _].
    by apply match_void, starts_upper_deriv.
Qed.

Lemma search_starts_upper (r : regex) (s : string) :
  starts_upper r = true → no_upper s = true → search r s = false.
Proof.
  intros Hr. induction s as [|c s IH]; intros Hs.
  - change (search r "") with (match_ r "" || false).
    by rewrite (match_starts_upper _ _ Hr Hs).
  - change (search r (String c s)) with (match_ r (String c s) || search r s).
    rewrite (match_starts_upper _ _ Hr Hs). simpl.
    simpl in Hs. apply andb_true_iff in Hs as [_ Hs]. by apply IH.
Qed.

Lemma scan_violations_lower (s : string) :
  Actions.scan_violations (Str.lower s) Actions.violations = false.
Proof.
  assert (Hall : Forall (λ r, starts_upper r = true) Actions.violations)
    by (repeat constructor).
  induction Hall as [|r rs Hr _ IH]; [done|].
  simpl. by rewrite (search_starts_upper _ _ Hr (lower_no_upper s)).
Qed.

(** What the shared prologue can produce: nothing to check, a lowered
    text, or [AttributeError] for a truthy message that is not a string. *)
Lemma bot_message_lower_cases (context : option (gmap string json)) :
  Actions.bot_message_lower context = Ok None ∨
  (∃ s, Actions.bot_message_lower context = Ok (Some (Str.lower s))) ∨
  Actions.bot_message_lower context = Raise AttributeError.
Proof.
  unfold Actions.bot_message_lower.
  destruct context as [ctx|]; [|by left].
  destruct (negb (Py.truthy (JDict ctx))); [by left|].
  simpl.
  destruct (ctx !! "bot_message") as [v|]; simpl.
  - destruct (Py.truthy v) eqn:Hv; simpl.
    + rewrite Hv. simpl. destruct v; eauto.
    + destruct (ctx !! "last_bot_message") as [v'|]; simpl; [|by left].
      destruct (Py.truthy v'); simpl; [|by left].
      destruct v'; eauto.
  - destruct (ctx !! "last_bot_message") as [v'|]; simpl; [|by left].
    destruct (Py.truthy v'); simpl; [|by left].
    destruct v'; eauto.
Qed.

(** The detector lowers the message and then searches it for patterns
    that all begin with a capital letter: it never answers true. *)
Lemma violates_policy_never_true (context : option (gmap string json)) :
  Actions.violates_policy context = Ok false ∨
  Actions.violates_policy context = Raise AttributeError.
Proof.
  unfold Actions.violates_policy.
  destruct (bot_message_lower_cases context) as [-> | [[s ->] | ->]].
  - by left.
  - left.
    change (Ok (Some (Str.lower s)) ≫= _)
      with (Ok (A:=bool) (Actions.scan_violations (Str.lower s) Actions.violations)).
    by rewrite scan_violations_lower.
  - by right.
Qed.

End ReFacts.

(** C8, as the code behaves: the detector answers false on the claim's
    own example and on a message that one of its patterns matches as
    written, because the message is lowered before the case-sensitive
    search for patterns that begin with a capital letter. *)
Theorem C8_violates_policy_misses :
  Actions.violates_policy (Some (bot "here's how to hack")) = Ok false ∧
  Actions.violates_policy (Some (bot "Here's how to hurt someone")) = Ok false ∧
  Actions.scan_violations "Here's how to hurt someone" Actions.violations = true.
Proof. repeat split; reflexivity. Qed.

(** * Further properties *)

(** ** Configuration resolver and classification client *)

Section ResolverMore.

Variable http : list request → request → result json.

Lemma get_config_id_truthy w w1 c :
  _get_config_id http w = (Ok c, w1) → Py.truthy c = true.
Proof.
  unfold _get_config_id. unfold_M. 
  destruct (Py.truthy (_config_id w)) eqn:Hid.
  { by intros [= <- _]. }
  intros H.
  repeat (case_match; simplify_eq/=; try done);
    by apply negb_false_iff.
Qed.

Lemma get_config_id_requests w :
  issued (_get_config_id http w).2 = issued w ∨
  issued (_get_config_id http w).2 = issued w ++ [GetConfigs].
Proof.
  unfold _get_config_id. unfold_M.
  repeat (case_match; simplify_eq/=; try done); auto.
Qed.

Lemma get_config_id_frame w :
  guardrail_name (_get_config_id http w).2 = guardrail_name w ∧
  _config_id (_get_config_id http w).2 = _config_id w ∧
  data (_get_config_id http w).2 = data w ∧
  heap (_get_config_id http w).2 = heap w.
Proof.
  unfold _get_config_id. unfold_M.
  repeat (case_match; simplify_eq/=; try done).
Qed.

(** The resolver issues at most one request, the fetch of the
    configurations, leaves the request dict and the response objects
    alone, and only ever returns a truthy id. *)
Theorem resolver_footprint (w : World) :
  let r := (_get_config_id http w).1 in
  let w1 := (_get_config_id http w).2 in
  (issued w1 = issued w ∨ issued w1 = issued w ++ [GetConfigs]) ∧
  guardrail_name w1 = guardrail_name w ∧ _config_id w1 = _config_id w ∧
  data w1 = data w ∧ heap w1 = heap w ∧
  (∀ c, r = Ok c → Py.truthy c = true).
Proof.
  intros r w1. split; [apply get_config_id_requests|].
  destruct (get_config_id_frame w) as (Hname & Hid & Hdata & Hheap).
  repeat (split; [done|]).
  intros c Hr. apply (get_config_id_truthy w w1 c).
  subst r w1. destruct (_get_config_id http w). simpl in Hr. by subst.
Qed.

(** With no explicit id and an empty cache, a fetch that lists a first
    configuration with a truthy id makes the resolver return that id and
    keep the list; the next resolution returns the same id and issues no
    request. *)
Theorem resolver_caches_first_success (w : World) (cfg : gmap string json)
    (rest : list json) (c : json) :
  Py.truthy (_config_id w) = false →
  _configs_cache w = JNull →
  http (issued w) GetConfigs = Ok (JList (JDict cfg :: rest)) →
  cfg !! "id" = Some c →
  Py.truthy c = true →
  let w1 := with_cache (after_request w GetConfigs) (JList (JDict cfg :: rest)) in
  _get_config_id http w = (Ok c, w1) ∧ _get_config_id http w1 = (Ok c, w1).
Proof.
  intros Hid Hcache Hget Hcfg Hc w1. split.
  - unfold _get_config_id. unfold_M. rewrite Hid, Hcache. simpl.
    rewrite Hget. simpl. rewrite Hcfg, Hc. reflexivity.
  - unfold _get_config_id. unfold_M. simpl. rewrite Hid. simpl.
    rewrite Hcfg, Hc. reflexivity.
Qed.

(** When the first configuration of the fetched list is a dict without an
    id, or with a falsy one, the resolver raises "Config ID not found in
    response" and keeps the list: the next resolution raises the same
    error without a request. *)
Theorem resolver_missing_id (w : World) (cfg : gmap string json) (rest : list json) :
  Py.truthy (_config_id w) = false →
  _configs_cache w = JNull →
  http (issued w) GetConfigs = Ok (JList (JDict cfg :: rest)) →
  Py.truthy (default JNull (cfg !! "id")) = false →
  let w1 := with_cache (after_request w GetConfigs) (JList (JDict cfg :: rest)) in
  _get_config_id http w = (Raise config_id_not_found, w1) ∧
  _get_config_id http w1 = (Raise config_id_not_found, w1).
Proof.
  intros Hid Hcache Hget Hcfg w1. split.
  - unfold _get_config_id. unfold_M. rewrite Hid, Hcache. simpl.
    rewrite Hget. simpl.
    destruct (cfg !! "id") as [c|]; simpl in *; [rewrite Hcfg|]; reflexivity.
  - unfold _get_config_id. unfold_M. simpl. rewrite Hid. simpl.
    destruct (cfg !! "id") as [c|]; simpl in *; [rewrite Hcfg|]; reflexivity.
Qed.

(** The client resolves the configuration id first and then posts once:
    the messages it was given, under the very id the resolver returned (a
    truthy one), and its result is the answer to that request.  When the
    resolver raises, the client raises the same error and posts nothing.
    Either way the resolver has issued at most the fetch of the
    configurations before. *)
Theorem client_posts_resolved_id (messages : list json) (w : World) :
  let resolved := _get_config_id http w in
  let r := (_check_message_with_api http messages w).1 in
  let w' := (_check_message_with_api http messages w).2 in
  (issued resolved.2 = issued w ∨ issued resolved.2 = issued w ++ [GetConfigs]) ∧
  match resolved.1 with
  | Ok c =>
      Py.truthy c = true ∧
      issued w' = issued resolved.2 ++ [PostChat c messages] ∧
      r = http (issued resolved.2) (PostChat c messages)
  | Raise e => r = Raise e ∧ issued w' = issued resolved.2
  end.
Proof.
  intros resolved r w'. subst resolved r w'.
  split; [apply get_config_id_requests|].
  pose proof (get_config_id_truthy w) as Htruthy.
  destruct (_get_config_id http w) as [[c|e] w1] eqn:Hres; simpl.
  - assert (_check_message_with_api http messages w
            = send http (PostChat c messages) w1) as ->.
    { unfold _check_message_with_api, mbind, M_bind. by rewrite Hres. }
    split; [by apply (Htruthy w1)|]. by unfold send.
  - assert (_check_message_with_api http messages w = (Raise e, w1)) as ->.
    { unfold _check_message_with_api, mbind, M_bind. by rewrite Hres. }
    done.
Qed.

End ResolverMore.

(** ** Classifier errors *)

Lemma getitem_error v key e : Py.getitem v key = Raise e → builtin_error e.
Proof.
  unfold builtin_error. destruct v; simpl; try (intros [= <-]; auto).
  case_match; intros [= <-]; auto.
Qed.

Lemma getitem0_error v e : Py.getitem0 v = Raise e → builtin_error e.
Proof.
  unfold builtin_error. destruct v; simpl; try (intros [= <-]; auto).
  - case_match; intros [= <-]; auto.
  - case_match; intros [= <-]; auto.
Qed.

Lemma get_error v key default e : Py.get v key default = Raise e → builtin_error e.
Proof. unfold builtin_error. destruct v; simpl; intros [= <-]; auto. Qed.

Lemma len_error v e : Py.len v = Raise e → builtin_error e.
Proof. unfold builtin_error. destruct v; simpl; intros [= <-]; auto. Qed.

Lemma contains_error key v e : Py.contains key v = Raise e → builtin_error e.
Proof. unfold builtin_error. destruct v; simpl; intros [= <-]; auto. Qed.

Lemma messages_0_content_error r e :
  messages_0_content r = Raise e → builtin_error e.
Proof.
  unfold messages_0_content.
  destruct (Py.getitem r "messages") as [ms|e1] eqn:H1; simpl.
  - destruct (Py.getitem0 ms) as [m|e2] eqn:H2; simpl.
    + apply getitem_error.
    + intros [= <-]. by apply getitem0_error in H2.
  - intros [= <-]. by apply getitem_error in H1.
Qed.

Lemma policy_from_metadata_error r e :
  policy_from_metadata r = Raise e → builtin_error e.
Proof.
  unfold policy_from_metadata.
  destruct (Py.contains "metadata" r) as [[]|e1] eqn:H1; simpl; try done.
  - destruct (Py.getitem r "metadata") as [md|e2] eqn:H2; simpl.
    + destruct (Py.contains "violated_policy" md) as [[]|e3] eqn:H3; simpl.
      * destruct (Py.getitem md "violated_policy") eqn:H4; simpl; [done|].
        intros [= <-]. by apply getitem_error in H4.
      * destruct (Py.contains "policy_name" md) as [[]|e5] eqn:H5; simpl; try done.
        -- destruct (Py.getitem md "policy_name") eqn:H6; simpl; [done|].
           intros [= <-]. by apply getitem_error in H6.
        -- intros [= <-]. by apply contains_error in H5.
      * intros [= <-]. by apply contains_error in H3.
    + intros [= <-]. by apply getitem_error in H2.
  - intros [= <-]. by apply contains_error in H1.
Qed.

Lemma scan_blocking_phrases_error r text phrases e :
  scan_blocking_phrases r text phrases = Raise e → builtin_error e.
Proof.
  induction phrases as [|p ps IH]; simpl; [done|].
  destruct (Str.contains _ _); [|done].
  unfold _extract_policy_name.
  destruct (policy_from_metadata r) as [[v|]|e1] eqn:H1; simpl; try done.
  intros [= <-]. by apply policy_from_metadata_error in H1.
Qed.

Lemma is_message_blocked_unfold r c :
  messages_0_content r = Ok c →
  _is_message_blocked r =
    if negb (Py.truthy r) then Ok (true, JStr "Empty response from guardrails API", JNull)
    else if negb (Py.truthy c) then Ok (true, JStr "Empty response from guardrails", JNull)
    else match c with
         | JStr text =>
             if String.eqb (Str.strip text) ""
             then Ok (true, JStr "Empty response from guardrails", JNull)
             else scan_blocking_phrases r text blocking_phrases
         | _ => Raise AttributeError
         end.
Proof. intros H. unfold _is_message_blocked. rewrite H. reflexivity. Qed.

(** The classifier raises nothing but the errors of Python's subscripts,
    [in] tests and attribute lookups. *)
Lemma is_message_blocked_error r e :
  _is_message_blocked r = Raise e → builtin_error e.
Proof.
  destruct (messages_0_content r) as [c|e1] eqn:H1.
  - rewrite (is_message_blocked_unfold _ _ H1).
    destruct (negb (Py.truthy r)); [done|].
    destruct (negb (Py.truthy c)); [done|].
    destruct c; try (intros [= <-]; unfold builtin_error; auto).
    destruct (String.eqb _ _); [done|]. apply scan_blocking_phrases_error.
  - rewrite (is_message_blocked_raise _ _ H1).
    intros [= <-]. by apply messages_0_content_error in H1.
Qed.

Lemma builtin_error_not_block_signal e :
  builtin_error e → Str.contains "GuardrailRaisedException" (Py.type_str e) = false.
Proof. by intros [-> | [-> | [-> | ->]]]. Qed.

(** ** Hook pipeline, further *)

Section HooksMore.

Variable http : list request → request → result json.
Variable should_run_guardrail : request_data → GuardrailEventHooks → bool.
Variable should_proceed_based_on_metadata : request_data → string → bool.
Variable str_value : json → string.
Variable str_exn : exn → string.

Local Abbreviation pre_hook :=
  (async_pre_call_hook http should_run_guardrail should_proceed_based_on_metadata
     str_value str_exn).
Local Abbreviation post_hook :=
  (async_post_call_success_hook http should_run_guardrail
     should_proceed_based_on_metadata str_value str_exn).

(** The content the post-call hook checks. *)
Local Abbreviation content_of w response :=
  (response_content (heap w !! response)).

(** *** The body of the pre-call hook, path by path *)

Lemma pre_call_body_reaches_client w user_message :
  user_message_in (request_messages (data w)) = Ok user_message →
  Py.truthy user_message = true →
  (∃ p, Py.slice100 user_message = Ok p) →
  pre_call_body http str_value w =
    (api_response ← _check_message_with_api http [api_message "user" user_message];
     '(is_blocked, reason, policy_name) ← lift (_is_message_blocked api_response);
     if is_blocked : bool then
       _log_guardrail_result "blocked"
         ("Message blocked by NeMo Guardrails: " +:+ format str_value reason)
         user_message JNull policy_name;;
       w' ← get_world;
       raise (GuardrailRaisedException
                ("Your message was blocked by content safety policies. Policy violated: "
                 +:+ format str_value (Py.or policy_name (JStr "Content Safety")))
                (guardrail_name w'))
     else
       _log_guardrail_result "passed" "Message passed NeMo Guardrails checks"
         user_message JNull JNull;;
       add_guardrail_to_applied_guardrails_header;;
       mret ()) w.
Proof.
  intros Hfound Htruthy [p Hslice]. unfold pre_call_body. unfold_M.
  rewrite (user_message_in_truthy _ _ Hfound Htruthy), Hfound. simpl.
  rewrite Htruthy, Hslice. reflexivity.
Qed.

Lemma client_keeps_name messages w answer w1 :
  _check_message_with_api http messages w = (answer, w1) →
  guardrail_name w1 = guardrail_name w.
Proof.
  intros Hclient.
  pose proof (check_message_with_api_frame http messages w) as Hframe.
  rewrite Hclient in Hframe. by destruct Hframe as (Hname & _ & _).
Qed.

Lemma client_same_request_state messages w answer w1 :
  _check_message_with_api http messages w = (answer, w1) →
  same_request_state w w1.
Proof.
  intros Hclient.
  pose proof (check_message_with_api_frame http messages w) as Hframe.
  by rewrite Hclient in Hframe.
Qed.

Lemma pre_call_body_blocked (w w1 : World)
    (user_message p api_response reason policy_name : json) :
  user_message_in (request_messages (data w)) = Ok user_message →
  Py.truthy user_message = true →
  Py.slice100 user_message = Ok p →
  _check_message_with_api http [api_message "user" user_message] w
    = (Ok api_response, w1) →
  _is_message_blocked api_response = Ok (true, reason, policy_name) →
  pre_call_body http str_value w =
    (Raise (GuardrailRaisedException
              ("Your message was blocked by content safety policies. Policy violated: "
               +:+ format str_value (Py.or policy_name (JStr "Content Safety")))
              (guardrail_name w)),
     log_appended w1
       (blocked_entry (guardrail_name w)
          ("Message blocked by NeMo Guardrails: " +:+ format str_value reason)
          policy_name (Some p) None)).
Proof.
  intros Hfound Htruthy Hslice Hclient Hblocked.
  pose proof (client_keeps_name _ _ _ _ Hclient) as Hname.
  rewrite (pre_call_body_reaches_client w user_message) by eauto.
  unfold_M. rewrite Hclient, Hblocked. simpl.
  unfold _log_guardrail_result, preview,
    add_standard_logging_guardrail_information_to_request_data.
  unfold_M. simpl. rewrite Htruthy, Hslice. simpl.
  unfold log_appended, blocked_entry. simpl. rewrite Hname. reflexivity.
Qed.

Lemma pre_call_body_passed (w w1 : World)
    (user_message p api_response reason policy_name : json) :
  user_message_in (request_messages (data w)) = Ok user_message →
  Py.truthy user_message = true →
  Py.slice100 user_message = Ok p →
  _check_message_with_api http [api_message "user" user_message] w
    = (Ok api_response, w1) →
  _is_message_blocked api_response = Ok (false, reason, policy_name) →
  pre_call_body http str_value w =
    (Ok (), header_appended
              (log_appended w1
                 (LogData (guardrail_name w) "passed"
                    "Message passed NeMo Guardrails checks" None (Some p) None))).
Proof.
  intros Hfound Htruthy Hslice Hclient Hpassed.
  pose proof (client_keeps_name _ _ _ _ Hclient) as Hname.
  rewrite (pre_call_body_reaches_client w user_message) by eauto.
  unfold_M. rewrite Hclient, Hpassed. simpl.
  unfold _log_guardrail_result, preview,
    add_standard_logging_guardrail_information_to_request_data,
    add_guardrail_to_applied_guardrails_header.
  unfold_M. simpl. rewrite Htruthy, Hslice. simpl.
  unfold header_appended, log_appended. simpl. rewrite Hname. reflexivity.
Qed.

Lemma pre_call_body_classification_raises (w w1 : World) (user_message p : json)
    (answer : result json) (e : exn) :
  user_message_in (request_messages (data w)) = Ok user_message →
  Py.truthy user_message = true →
  Py.slice100 user_message = Ok p →
  _check_message_with_api http [api_message "user" user_message] w
    = (answer, w1) →
  (api_response ← answer; _is_message_blocked api_response) = Raise e →
  pre_call_body http str_value w = (Raise e, w1).
Proof.
  intros Hfound Htruthy Hslice Hclient Hraise.
  rewrite (pre_call_body_reaches_client w user_message) by eauto.
  unfold_M. rewrite Hclient.
  destruct answer as [api_response|e']; simpl in Hraise.
  - by rewrite Hraise.
  - by injection Hraise as ->.
Qed.

Lemma pre_call_body_slice_raises w user_message e :
  user_message_in (request_messages (data w)) = Ok user_message →
  Py.truthy user_message = true →
  Py.slice100 user_message = Raise e →
  pre_call_body http str_value w = (Raise e, w).
Proof.
  intros Hfound Htruthy Hslice. unfold pre_call_body. unfold_M.
  rewrite (user_message_in_truthy _ _ Hfound Htruthy), Hfound. simpl.
  by rewrite Htruthy, Hslice.
Qed.

Lemma pre_call_body_loop_raises w e :
  Py.truthy (request_messages (data w)) = true →
  user_message_in (request_messages (data w)) = Raise e →
  pre_call_body http str_value w = (Raise e, w).
Proof.
  intros Htruthy Hloop. unfold pre_call_body. unfold_M.
  by rewrite Htruthy, Hloop.
Qed.

Lemma last_user_message_error reversed e :
  last_user_message reversed = Raise e → e = AttributeError.
Proof.
  induction reversed as [|msg rest IH]; [done|]. simpl.
  destruct msg as [| | | | |d]; try (by intros [= <-]).
  simpl. destruct (Py.is_str _ _); [done|exact IH].
Qed.

Lemma user_message_in_error messages e :
  user_message_in messages = Raise e → builtin_error e.
Proof.
  unfold builtin_error.
  destruct messages as [| | |s|l|d]; simpl; try (intros [= <-]; auto).
  - destruct (negb (String.eqb s "")); [intros [= <-]; auto|done].
  - intros ->%last_user_message_error. auto.
  - destruct (negb (size d =? 0)%nat); [intros [= <-]; auto|done].
Qed.

(** The pre-call hook behind its gates: the body under the handler. *)
Lemma pre_hook_gated w :
  should_run_guardrail (data w) pre_call = true →
  should_proceed_based_on_metadata (data w) GUARDRAIL_NAME = true →
  pre_hook w =
    match pre_call_body http str_value w with
    | (Ok a, w') => (Ok a, w')
    | (Raise e, w') =>
        if Str.contains "GuardrailRaisedException" (Py.type_str e) then (Raise e, w')
        else (Ok (), log_appended w' (error_entry w' ("Error: " +:+ str_exn e)))
    end.
Proof.
  intros Hrun Hproceed. unfold async_pre_call_hook. unfold_M.
  rewrite Hrun, Hproceed. simpl.
  destruct (pre_call_body http str_value w) as [[a|e] w']; [done|].
  by destruct (Str.contains _ _).
Qed.

(** Pre-call, blocked: the hook logs one result with status "blocked",
    carrying the policy and a preview of the message, and raises the block
    signal whose text names the policy, or "Content Safety" when the
    classifier attributed none; the applied-guardrails header is not
    written. *)
Theorem pre_call_blocked_raises_signal (w w1 : World)
    (user_message p api_response reason policy_name : json) :
  should_run_guardrail (data w) pre_call = true →
  should_proceed_based_on_metadata (data w) GUARDRAIL_NAME = true →
  user_message_in (request_messages (data w)) = Ok user_message →
  Py.truthy user_message = true →
  Py.slice100 user_message = Ok p →
  _check_message_with_api http [api_message "user" user_message] w
    = (Ok api_response, w1) →
  _is_message_blocked api_response = Ok (true, reason, policy_name) →
  pre_hook w =
    (Raise (GuardrailRaisedException
              ("Your message was blocked by content safety policies. Policy violated: "
               +:+ format str_value (Py.or policy_name (JStr "Content Safety")))
              (guardrail_name w)),
     log_appended w1
       (blocked_entry (guardrail_name w)
          ("Message blocked by NeMo Guardrails: " +:+ format str_value reason)
          policy_name (Some p) None)).
Proof.
  intros Hrun Hproceed Hfound Htruthy Hslice Hclient Hblocked.
  rewrite (pre_hook_gated w Hrun Hproceed).
  rewrite (pre_call_body_blocked w w1 user_message p api_response reason policy_name
             Hfound Htruthy Hslice Hclient Hblocked).
  reflexivity.
Qed.

(** Pre-call, passed: the hook logs one result with status "passed" and a
    preview of the message, adds the guardrail to the applied-guardrails
    header and returns allow. *)
Theorem pre_call_passed_allows (w w1 : World)
    (user_message p api_response reason policy_name : json) :
  should_run_guardrail (data w) pre_call = true →
  should_proceed_based_on_metadata (data w) GUARDRAIL_NAME = true →
  user_message_in (request_messages (data w)) = Ok user_message →
  Py.truthy user_message = true →
  Py.slice100 user_message = Ok p →
  _check_message_with_api http [api_message "user" user_message] w
    = (Ok api_response, w1) →
  _is_message_blocked api_response = Ok (false, reason, policy_name) →
  pre_hook w =
    (Ok (), header_appended
              (log_appended w1
                 (LogData (guardrail_name w) "passed"
                    "Message passed NeMo Guardrails checks" None (Some p) None))).
Proof.
  intros Hrun Hproceed Hfound Htruthy Hslice Hclient Hpassed.
  rewrite (pre_hook_gated w Hrun Hproceed).
  by rewrite (pre_call_body_passed w w1 user_message p api_response reason policy_name
                Hfound Htruthy Hslice Hclient Hpassed).
Qed.

(** Pre-call, classification failure: when the client or the classifier
    raises anything whose class name does not contain
    "GuardrailRaisedException", the hook logs one result with status
    "error" and returns allow. *)
Theorem pre_call_classification_error_fails_open (w w1 : World) (user_message p : json)
    (answer : result json) (e : exn) :
  should_run_guardrail (data w) pre_call = true →
  should_proceed_based_on_metadata (data w) GUARDRAIL_NAME = true →
  user_message_in (request_messages (data w)) = Ok user_message →
  Py.truthy user_message = true →
  Py.slice100 user_message = Ok p →
  _check_message_with_api http [api_message "user" user_message] w
    = (answer, w1) →
  (api_response ← answer; _is_message_blocked api_response) = Raise e →
  Str.contains "GuardrailRaisedException" (Py.type_str e) = false →
  pre_hook w =
    (Ok (), log_appended w1 (error_entry w ("Error: " +:+ str_exn e))).
Proof.
  intros Hrun Hproceed Hfound Htruthy Hslice Hclient Hraise Htype.
  rewrite (pre_hook_gated w Hrun Hproceed).
  rewrite (pre_call_body_classification_raises w w1 user_message p answer e
             Hfound Htruthy Hslice Hclient Hraise), Htype.
  unfold error_entry. by rewrite (client_keeps_name _ _ _ _ Hclient).
Qed.

Lemma block_signal_class e :
  Str.contains "GuardrailRaisedException" (Py.type_str e) = true →
  ∃ message name, e = GuardrailRaisedException message name.
Proof.
  destruct e as [| | | | |cls ?|]; try done; [by destruct cls|eauto].
Qed.

(** The pre-call hook lets no exception out but the block signal. *)
Theorem pre_call_raises_only_block_signal (w : World) :
  (pre_hook w).1 = Ok () ∨
  ∃ message name, (pre_hook w).1 = Raise (GuardrailRaisedException message name).
Proof.
  unfold async_pre_call_hook. unfold_M.
  destruct (should_run_guardrail _ _); [|by left].
  destruct (should_proceed_based_on_metadata _ _); [|by left].
  simpl. destruct (pre_call_body _ _ _) as [[[]|e] w1]; [by left|].
  destruct (Str.contains _ (Py.type_str e)) eqn:Htype; [|by left].
  right. apply block_signal_class in Htype as (message & name & ->). eauto.
Qed.

(** What the client can raise: an error of Python's own operations, one of
    the two [ValueError]s of the resolver, or what the HTTP layer raised. *)
Lemma client_error_source messages w w1 e :
  _check_message_with_api http messages w = (Raise e, w1) →
  builtin_error e ∨ (∃ msg, e = ValueError msg) ∨ ∃ history req, http history req = Raise e.
Proof.
  unfold _check_message_with_api, _get_config_id. unfold_M. simpl.
  intros H.
  repeat (case_match; simplify_eq/=; try done); eauto 10;
    left; eauto using get_error, len_error, getitem0_error;
    unfold builtin_error; auto.
Qed.

Lemma client_error_not_block_signal messages w w1 e :
  raises_requests_only http →
  _check_message_with_api http messages w = (Raise e, w1) →
  Str.contains "GuardrailRaisedException" (Py.type_str e) = false.
Proof.
  intros Hhttp [Hb | [[msg ->] | (history & req & Hreq)]]%client_error_source.
  - by apply builtin_error_not_block_signal.
  - done.
  - apply Hhttp in Hreq as (cls & msg & ->).
    apply transport_error_is_not_block_signal.
Qed.

Lemma slice100_error v e : Py.slice100 v = Raise e → e = TypeError.
Proof. destruct v; simpl; congruence. Qed.

(** The outcomes of the pre-call hook, when the HTTP layer raises
    exceptions of [requests] only.  Either nothing happens; or one "error"
    result is logged and the request is allowed; or one "passed" result is
    logged, the header is written and the request is allowed; or one
    "blocked" result is logged and the block signal is raised.  The
    message list and the response objects are never touched, and the
    header is written only with a "passed" result. *)
Theorem pre_call_outcomes (w : World) :
  raises_requests_only http →
  pre_hook w = (Ok (), w) ∨
  (∃ w1 entry, same_request_state w w1 ∧ log_status entry = "error" ∧
     pre_hook w = (Ok (), log_appended w1 entry)) ∨
  (∃ w1 entry, same_request_state w w1 ∧ log_status entry = "passed" ∧
     pre_hook w = (Ok (), header_appended (log_appended w1 entry))) ∨
  (∃ w1 entry message, same_request_state w w1 ∧ log_status entry = "blocked" ∧
     pre_hook w = (Raise (GuardrailRaisedException message (guardrail_name w)),
                   log_appended w1 entry)).
Proof.
  intros Hhttp.
  destruct (should_run_guardrail (data w) pre_call) eqn:Hrun.
  2:{ left. unfold async_pre_call_hook. unfold_M. by rewrite Hrun. }
  destruct (should_proceed_based_on_metadata (data w) GUARDRAIL_NAME) eqn:Hproceed.
  2:{ left. unfold async_pre_call_hook. unfold_M. by rewrite Hrun, Hproceed. }
  rewrite (pre_hook_gated w Hrun Hproceed).
  destruct (Py.truthy (request_messages (data w))) eqn:Hmessages.
  2:{ left. by rewrite (pre_call_body_no_messages http str_value w Hmessages). }
  destruct (user_message_in (request_messages (data w))) as [user_message|e] eqn:Hfound.
  2:{ right. left. exists w, (error_entry w ("Error: " +:+ str_exn e)).
      split; [done|]. split; [done|].
      rewrite (pre_call_body_loop_raises w e Hmessages Hfound).
      by rewrite (builtin_error_not_block_signal e (user_message_in_error _ _ Hfound)). }
  destruct (Py.truthy user_message) eqn:Htruthy.
  2:{ left. by rewrite (pre_call_body_no_user_text http str_value w user_message
                          Hfound Htruthy). }
  destruct (Py.slice100 user_message) as [p|e] eqn:Hslice.
  2:{ right. left. exists w, (error_entry w ("Error: " +:+ str_exn e)).
      split; [done|]. split; [done|].
      rewrite (pre_call_body_slice_raises w user_message e Hfound Htruthy Hslice).
      by rewrite (slice100_error _ _ Hslice). }
  destruct (_check_message_with_api http [api_message "user" user_message] w)
    as [answer w1] eqn:Hclient.
  pose proof (client_same_request_state _ _ _ _ Hclient) as Hsame.
  destruct (api_response ← answer; _is_message_blocked api_response)
    as [[[[] reason] policy_name]|e] eqn:Hdecision.
  - right. right. right.
    destruct answer as [api_response|]; [simpl in Hdecision|done].
    rewrite (pre_call_body_blocked w w1 user_message p api_response reason policy_name
               Hfound Htruthy Hslice Hclient Hdecision).
    eexists w1, _, _. split; [done|]. split; [|reflexivity]. done.
  - right. right. left.
    destruct answer as [api_response|]; [simpl in Hdecision|done].
    rewrite (pre_call_body_passed w w1 user_message p api_response reason policy_name
               Hfound Htruthy Hslice Hclient Hdecision).
    eexists w1, _. split; [done|]. split; [|reflexivity]. done.
  - right. left.
    rewrite (pre_call_body_classification_raises w w1 user_message p answer e
               Hfound Htruthy Hslice Hclient Hdecision).
    assert (Str.contains "GuardrailRaisedException" (Py.type_str e) = false) as ->.
    { destruct answer as [api_response|e']; simpl in Hdecision.
      - by apply builtin_error_not_block_signal,
          (is_message_blocked_error api_response).
      - injection Hdecision as ->. by eapply client_error_not_block_signal. }
    eexists w1, _. split; [done|]. split; [|reflexivity]. done.
Qed.

(** *** The body of the post-call hook, path by path *)

Lemma post_call_body_reaches_client w response :
  Py.truthy (content_of w response) = true →
  (∃ p, Py.slice100 (content_of w response) = Ok p) →
  post_call_body http str_value response w =
    (api_response ← _check_message_with_api http
                       [api_message "assistant" (content_of w response)];
     '(is_blocked, reason, policy_name) ← lift (_is_message_blocked api_response);
     (if is_blocked : bool then
        _log_guardrail_result "blocked"
          ("LLM response blocked by NeMo Guardrails: " +:+ format str_value reason)
          JNull (content_of w response) policy_name;;
        rewrite_content response
          (JStr (refusal (format str_value (Py.or policy_name (JStr "Content Safety")))))
      else
        _log_guardrail_result "passed" "LLM response passed NeMo Guardrails checks"
          JNull (content_of w response) JNull);;
     add_guardrail_to_applied_guardrails_header;;
     mret response) w.
Proof.
  intros Htruthy [p Hslice]. unfold post_call_body. unfold_M.
  rewrite Htruthy, Hslice. reflexivity.
Qed.

Lemma post_call_body_passed (w w1 : World) (response : nat)
    (p api_response reason policy_name : json) :
  Py.truthy (content_of w response) = true →
  Py.slice100 (content_of w response) = Ok p →
  _check_message_with_api http [api_message "assistant" (content_of w response)] w
    = (Ok api_response, w1) →
  _is_message_blocked api_response = Ok (false, reason, policy_name) →
  post_call_body http str_value response w =
    (Ok response,
     header_appended
       (log_appended w1
          (LogData (guardrail_name w) "passed"
             "LLM response passed NeMo Guardrails checks" None None (Some p)))).
Proof.
  intros Htruthy Hslice Hclient Hpassed.
  pose proof (client_keeps_name _ _ _ _ Hclient) as Hname.
  rewrite post_call_body_reaches_client by eauto.
  unfold_M. rewrite Hclient, Hpassed. simpl.
  unfold _log_guardrail_result, preview,
    add_standard_logging_guardrail_information_to_request_data,
    add_guardrail_to_applied_guardrails_header.
  unfold_M. simpl. rewrite Htruthy, Hslice. simpl.
  unfold header_appended, log_appended. simpl. rewrite Hname. reflexivity.
Qed.

Lemma response_content_truthy (o : option ModelResponse) :
  Py.truthy (response_content o) = true →
  ∃ choice rest, o = Some {| choices := Some (choice :: rest) |} ∧
    message choice = Some {| content := Some (response_content o) |}.
Proof.
  destruct o as [[[[|choice rest]|]]|]; try done.
  simpl. destruct (message choice) as [[[v|]]|] eqn:Hm; try done.
  intros _. by exists choice, rest.
Qed.

Lemma post_call_body_blocked (w w1 : World) (response : nat)
    (choice : Choices) (rest : list Choices) (p api_response reason policy_name : json) :
  heap w !! response = Some {| choices := Some (choice :: rest) |} →
  message choice = Some {| content := Some (content_of w response) |} →
  Py.truthy (content_of w response) = true →
  Py.slice100 (content_of w response) = Ok p →
  _check_message_with_api http [api_message "assistant" (content_of w response)] w
    = (Ok api_response, w1) →
  _is_message_blocked api_response = Ok (true, reason, policy_name) →
  post_call_body http str_value response w =
    (Ok response,
     header_appended
       (with_object
          (log_appended w1
             (blocked_entry (guardrail_name w)
                ("LLM response blocked by NeMo Guardrails: " +:+ format str_value reason)
                policy_name None (Some p)))
          response
          {| choices :=
               Some ({| message := Some {| content :=
                          Some (JStr (refusal (format str_value
                                  (Py.or policy_name (JStr "Content Safety"))))) |} |}
                     :: rest) |})).
Proof.
  intros Hheap Hmessage Htruthy Hslice Hclient Hblocked.
  pose proof (check_message_with_api_frame http
                [api_message "assistant" (content_of w response)] w) as Hframe.
  rewrite Hclient in Hframe. simpl in Hframe. destruct Hframe as (Hname & _ & Hheap1).
  rewrite post_call_body_reaches_client by eauto.
  unfold_M. rewrite Hclient, Hblocked. simpl.
  unfold _log_guardrail_result, preview,
    add_standard_logging_guardrail_information_to_request_data,
    rewrite_content, add_guardrail_to_applied_guardrails_header.
  unfold_M. simpl. rewrite Htruthy, Hslice. simpl.
  rewrite Hheap1, Hheap, Hmessage. simpl.
  unfold header_appended, with_object, log_appended, blocked_entry. simpl.
  rewrite Hname, Hheap1. reflexivity.
Qed.

Lemma post_call_body_classification_raises (w w1 : World) (response : nat) (p : json)
    (answer : result json) (e : exn) :
  Py.truthy (content_of w response) = true →
  Py.slice100 (content_of w response) = Ok p →
  _check_message_with_api http [api_message "assistant" (content_of w response)] w
    = (answer, w1) →
  (api_response ← answer; _is_message_blocked api_response) = Raise e →
  post_call_body http str_value response w = (Raise e, w1).
Proof.
  intros Htruthy Hslice Hclient Hraise.
  rewrite post_call_body_reaches_client by eauto.
  unfold_M. rewrite Hclient.
  destruct answer as [api_response|e']; simpl in Hraise.
  - by rewrite Hraise.
  - by injection Hraise as ->.
Qed.

Lemma post_call_body_slice_raises w response e :
  Py.truthy (content_of w response) = true →
  Py.slice100 (content_of w response) = Raise e →
  post_call_body http str_value response w = (Raise e, w).
Proof.
  intros Htruthy Hslice. unfold post_call_body. unfold_M.
  by rewrite Htruthy, Hslice.
Qed.

Lemma post_call_body_no_content w response :
  Py.truthy (content_of w response) = false →
  post_call_body http str_value response w = (Ok response, w).
Proof. intros Hfalsy. unfold post_call_body. unfold_M. by rewrite Hfalsy. Qed.

(** The post-call hook behind its gates: the body under the handler. *)
Lemma post_hook_gated w response :
  should_run_guardrail (data w) post_call = true →
  should_proceed_based_on_metadata (data w) GUARDRAIL_NAME = true →
  post_hook response w =
    match post_call_body http str_value response w with
    | (Ok a, w') => (Ok a, w')
    | (Raise e, w') =>
        (Ok response, log_appended w' (error_entry w' ("Error: " +:+ str_exn e)))
    end.
Proof.
  intros Hrun Hproceed. unfold async_post_call_success_hook. unfold_M.
  rewrite Hrun, Hproceed. simpl.
  by destruct (post_call_body http str_value response w) as [[a|e] w'].
Qed.

(** Post-call, passed: the hook logs one result with status "passed" and a
    preview of the response, adds the guardrail to the header, returns the
    reference it was given and leaves every response object as it was. *)
Theorem post_call_passed_unchanged (w w1 : World) (response : nat)
    (p api_response reason policy_name : json) :
  should_run_guardrail (data w) post_call = true →
  should_proceed_based_on_metadata (data w) GUARDRAIL_NAME = true →
  Py.truthy (response_content (heap w !! response)) = true →
  Py.slice100 (response_content (heap w !! response)) = Ok p →
  _check_message_with_api http
    [api_message "assistant" (response_content (heap w !! response))] w
    = (Ok api_response, w1) →
  _is_message_blocked api_response = Ok (false, reason, policy_name) →
  post_hook response w =
    (Ok response,
     header_appended
       (log_appended w1
          (LogData (guardrail_name w) "passed"
             "LLM response passed NeMo Guardrails checks" None None (Some p)))) ∧
  heap w1 = heap w.
Proof.
  intros Hrun Hproceed Htruthy Hslice Hclient Hpassed.
  split; [|by destruct (client_same_request_state _ _ _ _ Hclient) as (_ & _ & ?)].
  rewrite (post_hook_gated w response Hrun Hproceed).
  by rewrite (post_call_body_passed w w1 response p api_response reason policy_name
                Htruthy Hslice Hclient Hpassed).
Qed.

(** Post-call, classification failure: whatever the client or the
    classifier raises, the block signal included, the hook logs one result
    with status "error", returns the reference it was given and leaves
    every response object and the header as they were. *)
Theorem post_call_classification_error_fails_open (w w1 : World) (response : nat)
    (p : json) (answer : result json) (e : exn) :
  should_run_guardrail (data w) post_call = true →
  should_proceed_based_on_metadata (data w) GUARDRAIL_NAME = true →
  Py.truthy (response_content (heap w !! response)) = true →
  Py.slice100 (response_content (heap w !! response)) = Ok p →
  _check_message_with_api http
    [api_message "assistant" (response_content (heap w !! response))] w
    = (answer, w1) →
  (api_response ← answer; _is_message_blocked api_response) = Raise e →
  post_hook response w =
    (Ok response, log_appended w1 (error_entry w ("Error: " +:+ str_exn e))) ∧
  heap w1 = heap w.
Proof.
  intros Hrun Hproceed Htruthy Hslice Hclient Hraise.
  split; [|by destruct (client_same_request_state _ _ _ _ Hclient) as (_ & _ & ?)].
  rewrite (post_hook_gated w response Hrun Hproceed).
  rewrite (post_call_body_classification_raises w w1 response p answer e
             Htruthy Hslice Hclient Hraise).
  unfold error_entry. by rewrite (client_keeps_name _ _ _ _ Hclient).
Qed.

(** Post-call, nothing to check: when the response has no first choice,
    no message, no content or a falsy content, the hook returns the
    reference it was given and leaves the world as it was. *)
Theorem post_call_no_content_no_effects (w : World) (response : nat) :
  Py.truthy (response_content (heap w !! response)) = false →
  post_hook response w = (Ok response, w).
Proof.
  intros Hfalsy. unfold async_post_call_success_hook. unfold_M.
  destruct (should_run_guardrail _ _); [|done].
  destruct (should_proceed_based_on_metadata _ _); [|done].
  simpl. by rewrite (post_call_body_no_content w response Hfalsy).
Qed.

(** The outcomes of the post-call hook.  It always returns the reference
    it was given.  Either nothing happens; or one "error" result is
    logged; or one "passed" result is logged and the header is written; or
    one "blocked" result is logged, the header is written and the content
    of the first choice of the checked object is replaced by a text, its
    other choices kept.  No other response object is ever touched, and on
    an error neither the header nor any object is. *)
Theorem post_call_outcomes (w : World) (response : nat) :
  post_hook response w = (Ok response, w) ∨
  (∃ w1 entry, same_request_state w w1 ∧ log_status entry = "error" ∧
     post_hook response w = (Ok response, log_appended w1 entry)) ∨
  (∃ w1 entry, same_request_state w w1 ∧ log_status entry = "passed" ∧
     post_hook response w = (Ok response, header_appended (log_appended w1 entry))) ∨
  (∃ w1 entry choice rest text,
     same_request_state w w1 ∧ log_status entry = "blocked" ∧
     heap w !! response = Some {| choices := Some (choice :: rest) |} ∧
     post_hook response w =
       (Ok response,
        header_appended
          (with_object (log_appended w1 entry) response
             {| choices := Some ({| message := Some {| content := Some (JStr text) |} |}
                                 :: rest) |}))).
Proof.
  destruct (should_run_guardrail (data w) post_call) eqn:Hrun.
  2:{ left. unfold async_post_call_success_hook. unfold_M. by rewrite Hrun. }
  destruct (should_proceed_based_on_metadata (data w) GUARDRAIL_NAME) eqn:Hproceed.
  2:{ left. unfold async_post_call_success_hook. unfold_M. by rewrite Hrun, Hproceed. }
  rewrite (post_hook_gated w response Hrun Hproceed).
  destruct (Py.truthy (content_of w response)) eqn:Htruthy.
  2:{ left. by rewrite (post_call_body_no_content w response Htruthy). }
  destruct (Py.slice100 (content_of w response)) as [p|e] eqn:Hslice.
  2:{ right. left. exists w, (error_entry w ("Error: " +:+ str_exn e)).
      split; [done|]. split; [done|].
      by rewrite (post_call_body_slice_raises w response e Htruthy Hslice). }
  destruct (_check_message_with_api http
              [api_message "assistant" (content_of w response)] w)
    as [answer w1] eqn:Hclient.
  pose proof (client_same_request_state _ _ _ _ Hclient) as Hsame.
  destruct (api_response ← answer; _is_message_blocked api_response)
    as [[[[] reason] policy_name]|e] eqn:Hdecision.
  - right. right. right.
    destruct answer as [api_response|]; [simpl in Hdecision|done].
    destruct (response_content_truthy _ Htruthy) as (choice & rest & Hheap & Hmessage).
    rewrite (post_call_body_blocked w w1 response choice rest p api_response reason
               policy_name Hheap Hmessage Htruthy Hslice Hclient Hdecision).
    eexists w1, _, choice, rest, _. split; [done|]. split; [|split; [done|reflexivity]].
    done.
  - right. right. left.
    destruct answer as [api_response|]; [simpl in Hdecision|done].
    rewrite (post_call_body_passed w w1 response p api_response reason policy_name
               Htruthy Hslice Hclient Hdecision).
    eexists w1, _. split; [done|]. split; [|reflexivity]. done.
  - right. left.
    rewrite (post_call_body_classification_raises w w1 response p answer e
               Htruthy Hslice Hclient Hdecision).
    eexists w1, _. split; [done|]. split; [|reflexivity]. done.
Qed.

End HooksMore.

(** ** Classifier, further *)

Lemma lstrip_empty (s : string) : Str.lstrip s = "" ↔ allspace s = true.
Proof.
  induction s as [|c s IH]; simpl; [done|].
  destruct (Str.isspace c); simpl; [done|]. split; done.
Qed.

Lemma allspace_lstrip (s : string) : allspace (Str.lstrip s) = true ↔ allspace s = true.
Proof.
  induction s as [|c s IH]; simpl; [done|].
  destruct (Str.isspace c) eqn:Hc; simpl; [done|]. by rewrite Hc.
Qed.

Lemma rev_app_empty (s1 s2 : string) : String.rev_app s1 s2 = "" ↔ s1 = "" ∧ s2 = "".
Proof.
  revert s2. induction s1 as [|c s1 IH]; intros s2; simpl.
  - split; [by intros ->|by intros [_ ->]].
  - rewrite IH. split; [by intros [_ [=]]|by intros [[=] _]].
Qed.

Lemma allspace_rev_app (s1 s2 : string) :
  allspace (String.rev_app s1 s2) = allspace s1 && allspace s2.
Proof.
  revert s2. induction s1 as [|c s1 IH]; intros s2; simpl; [done|].
  rewrite IH. simpl. by destruct (Str.isspace c), (allspace s1), (allspace s2).
Qed.

(** [s.strip() == ""] exactly when [s] is made of whitespace only. *)
Lemma strip_empty (s : string) : Str.strip s = "" ↔ allspace s = true.
Proof.
  unfold Str.strip, Str.rstrip, String.rev.
  rewrite rev_app_empty, lstrip_empty, allspace_rev_app, andb_true_r, allspace_lstrip.
  tauto.
Qed.

Lemma isspace_lower_char (c : ascii) : Str.isspace (Str.lower_char c) = Str.isspace c.
Proof. by destruct c as [[] [] [] [] [] [] [] []]. Qed.

Lemma allspace_lower (s : string) : allspace (Str.lower s) = allspace s.
Proof.
  induction s as [|c s IH]; simpl; [done|]. by rewrite isspace_lower_char, IH.
Qed.

Lemma strip_eqb_allspace (s : string) : String.eqb (Str.strip s) "" = allspace s.
Proof.
  destruct (allspace s) eqn:Hs.
  - apply String.eqb_eq. by apply strip_empty.
  - apply String.eqb_neq. rewrite strip_empty. congruence.
Qed.

Lemma lower_empty (s : string) : String.eqb (Str.lower s) "" = String.eqb s "".
Proof. by destruct s. Qed.

Lemma policy_from_metadata_dict (d : gmap string json) :
  policy_from_metadata (JDict d) =
    match d !! "metadata" with
    | None => Ok None
    | Some metadata =>
        has_violated ← Py.contains "violated_policy" metadata;
        if has_violated : bool then
          v ← Py.getitem metadata "violated_policy"; mret (Some v)
        else
          has_name ← Py.contains "policy_name" metadata;
          if has_name : bool then
            v ← Py.getitem metadata "policy_name"; mret (Some v)
          else mret None
    end.
Proof. unfold policy_from_metadata. simpl. by destruct (d !! "metadata"). Qed.

Lemma scan_blocking_phrases_find (r : json) text phrases :
  scan_blocking_phrases r text phrases =
    match find (λ phrase, Str.contains (Str.lower phrase) (Str.lower text)) phrases with
    | Some phrase =>
        from_metadata ← policy_from_metadata r;
        mret (true, JStr ("Blocking phrase detected: " +:+ phrase),
              match from_metadata with
              | Some v => v
              | None => JStr (policy_from_tables text)
              end)
    | None => Ok (false, JNull, JNull)
    end.
Proof.
  induction phrases as [|phrase phrases IH]; simpl; [done|].
  destruct (Str.contains _ _); [|done].
  unfold _extract_policy_name. by destruct (policy_from_metadata r) as [[v|]|e].
Qed.

Lemma policy_from_tables_lower (t1 t2 : string) :
  Str.lower t1 = Str.lower t2 → policy_from_tables t1 = policy_from_tables t2.
Proof. unfold policy_from_tables. by intros ->. Qed.

(** The decision does not depend on the case of the text: two responses
    with the same metadata whose texts agree up to case get the same
    decision, error included. *)
Theorem decision_ignores_case (d1 d2 : gmap string json) (t1 t2 : string) :
  has_content d1 (JStr t1) →
  has_content d2 (JStr t2) →
  d1 !! "metadata" = d2 !! "metadata" →
  Str.lower t1 = Str.lower t2 →
  _is_message_blocked (JDict d1) = _is_message_blocked (JDict d2).
Proof.
  intros H1 H2 Hmeta Hlower.
  rewrite (is_message_blocked_text _ _ H1), (is_message_blocked_text _ _ H2).
  rewrite !strip_eqb_allspace, <- (lower_empty t1), <- (lower_empty t2),
    <- (allspace_lower t1), <- (allspace_lower t2), Hlower.
  destruct (_ || _); [done|].
  rewrite !scan_blocking_phrases_find, !policy_from_metadata_dict, Hmeta, Hlower.
  by rewrite (policy_from_tables_lower _ _ Hlower).
Qed.

Lemma scan_policy_mapping_none response_lower table :
  scan_policy_mapping response_lower table = None →
  ∀ kv, In kv table → Str.contains (Str.lower kv.1) response_lower = false.
Proof.
  induction table as [|[phrase name] table IH]; simpl; [done|].
  destruct (Str.contains (Str.lower phrase) response_lower) eqn:Hp; [done|].
  intros Hnone kv [<-|Hkv]; [done|by apply IH].
Qed.

Lemma scan_policy_mapping_some response_lower table name :
  scan_policy_mapping response_lower table = Some name →
  In name (map snd table).
Proof.
  induction table as [|[phrase name'] table IH]; simpl; [done|].
  destruct (Str.contains _ _); [intros [= ->]; by left|]. intros H. right. by apply IH.
Qed.

Lemma scan_legacy_phrases_true response_lower phrases l :
  In l phrases → Str.contains (Str.lower l) response_lower = true →
  scan_legacy_phrases response_lower phrases = true.
Proof.
  induction phrases as [|phrase phrases IH]; simpl; [done|].
  intros [->|Hl] Hc; [by rewrite Hc|].
  destruct (Str.contains (Str.lower phrase) response_lower); [done|by apply IH].
Qed.

Lemma lower_contains_trans (k p text : string) :
  Str.contains (Str.lower k) (Str.lower p) = true →
  Str.contains (Str.lower p) (Str.lower text) = true →
  Str.contains (Str.lower k) (Str.lower text) = true.
Proof. apply contains_trans. Qed.

(** A text that contains an attributable phrase is never attributed to
    "Unknown Policy". *)
Lemma policy_from_tables_known (phrase text : string) :
  attributable phrase = true →
  Str.contains (Str.lower phrase) (Str.lower text) = true →
  policy_from_tables text ≠ "Unknown Policy".
Proof.
  intros Hattr Hc. unfold policy_from_tables. cbv zeta.
  destruct (scan_policy_mapping (Str.lower text) policy_mapping) as [name|] eqn:Hscan.
  - apply scan_policy_mapping_some in Hscan. intros ->.
    revert Hscan. unfold policy_mapping. simpl.
    intros H. repeat (destruct H as [H|H]; [discriminate H|]). exact H.
  - pose proof (scan_policy_mapping_none _ _ Hscan) as Hnone.
    apply orb_true_iff in Hattr as [Hk|Hl].
    + apply existsb_exists in Hk as (kv & Hkv & Hkc).
      specialize (Hnone kv Hkv).
      pose proof (lower_contains_trans _ _ _ Hkc Hc) as Hin. congruence.
    + apply existsb_exists in Hl as (l & Hl & Hlc).
      rewrite (scan_legacy_phrases_true _ _ l Hl (lower_contains_trans _ _ _ Hlc Hc)).
      done.
Qed.

Lemma blocking_phrases_attributable :
  forallb attributable blocking_phrases = true.
Proof. vm_compute. reflexivity. Qed.

Lemma allspace_app (a b : string) : allspace (a +:+ b) = allspace a && allspace b.
Proof.
  induction a as [|c a IH]; [done|].
  rewrite append_cons. simpl. by rewrite IH, andb_assoc.
Qed.

Lemma blocking_phrases_not_blank :
  forallb (λ phrase, negb (allspace phrase)) blocking_phrases = true.
Proof. vm_compute. reflexivity. Qed.

(** A text that contains a blocking phrase is not blank. *)
Lemma some_blocking_phrase_not_blank (text : string) :
  some_blocking_phrase text → allspace text = false.
Proof.
  intros (phrase & Hin & Hc). apply not_true_is_false. intros Hblank.
  pose proof (proj1 (forallb_forall _ _) blocking_phrases_not_blank phrase Hin) as Hp.
  apply negb_true_iff in Hp.
  apply contains_spec in Hc as (a & b & Hab).
  rewrite <- allspace_lower, Hab, !allspace_app, allspace_lower in Hblank.
  destruct (allspace phrase); [done|].
  by rewrite andb_false_r in Hblank.
Qed.

Lemma find_first {A} (f : A → bool) (l : list A) (x : A) :
  find f l = Some x →
  ∃ before after, l = before ++ x :: after ∧
    Forall (λ y, f y = false) before ∧ f x = true.
Proof.
  induction l as [|y l IH]; simpl; [done|].
  destruct (f y) eqn:Hy.
  - intros [= ->]. by exists [], l.
  - intros (before & after & -> & Hbefore & Hx)%IH.
    exists (y :: before), after. split; [done|]. split; [by constructor|done].
Qed.

Lemma policy_from_tables_cases (text : string) :
  In (policy_from_tables text) (map snd policy_mapping) ∨
  policy_from_tables text = "Content Policy Violation" ∨
  policy_from_tables text = "Unknown Policy".
Proof.
  unfold policy_from_tables. cbv zeta.
  destruct (scan_policy_mapping (Str.lower text) policy_mapping) as [name|] eqn:Hscan.
  - left. by apply scan_policy_mapping_some in Hscan.
  - right. destruct (scan_legacy_phrases _ _); auto.
Qed.

(** A text that contains a blocking phrase, whatever surrounds it and
    whatever its case, is never passed.  The classifier answers blocked,
    the reason naming the first such phrase in the order of the list, with
    the policy that [_extract_policy_name] gives, and raises only if that
    lookup does.  When the response attributes no policy through its
    metadata, the policy is one of the sixteen names of the policy table
    or "Content Policy Violation": the default "Unknown Policy" never
    comes out of the classifier. *)
Theorem phrase_anywhere_blocks (d : gmap string json) (text : string) :
  has_content d (JStr text) →
  some_blocking_phrase text →
  ∃ before phrase after,
    blocking_phrases = before ++ phrase :: after ∧
    Forall (λ earlier, Str.contains (Str.lower earlier) (Str.lower text) = false) before ∧
    Str.contains (Str.lower phrase) (Str.lower text) = true ∧
    _is_message_blocked (JDict d) =
      (policy ← _extract_policy_name (JDict d) text;
       Ok (true, JStr ("Blocking phrase detected: " +:+ phrase), policy)) ∧
    (no_policy_metadata d →
     ∃ policy,
       _extract_policy_name (JDict d) text = Ok (JStr policy) ∧
       (In policy ["Jailbreak Prevention"; "Harmful Content Prevention";
                   "Content Safety Policy"; "PII Protection";
                   "Safety Bypass Prevention"; "Sexual Content Prevention";
                   "Self-Harm Prevention"; "Violence Prevention";
                   "Illegal Activity Prevention"; "Instruction Bypass Prevention";
                   "Sensitive Information Protection"; "Toxicity Prevention";
                   "Malicious Code Prevention"; "Respectful Interaction Policy";
                   "Medical Advice Policy prevention";
                   "Legal Advice Policy Prevention"] ∨
        policy = "Content Policy Violation")).
Proof.
  intros Hc Hsome.
  pose proof (some_blocking_phrase_not_blank text Hsome) as Hblank.
  destruct Hsome as (phrase0 & Hin0 & Hc0).
  rewrite (is_message_blocked_text _ _ Hc), strip_eqb_allspace, Hblank.
  assert (String.eqb text "" = false) as ->.
  { apply String.eqb_neq. by intros ->. }
  cbn [orb]. rewrite scan_blocking_phrases_find.
  destruct (find _ blocking_phrases) as [phrase|] eqn:Hfind.
  2:{ pose proof (find_none _ _ Hfind phrase0 Hin0) as Hno. simpl in Hno. congruence. }
  pose proof (find_some _ _ Hfind) as [Hin Hcontains].
  apply find_first in Hfind as (before & after & Hsplit & Hbefore & _).
  exists before, phrase, after.
  split; [done|]. split; [done|]. split; [done|]. split.
  - unfold _extract_policy_name.
    by destruct (policy_from_metadata (JDict d)) as [[v|]|e].
  - intros Hmeta. exists (policy_from_tables text). split.
    + unfold _extract_policy_name. by rewrite (policy_from_metadata_none _ Hmeta).
    + destruct (policy_from_tables_cases text) as [Hname | [Hcpv | Hunknown]].
      * by left.
      * by right.
      * exfalso. revert Hunknown. apply (policy_from_tables_known phrase); [|done].
        by apply (proj1 (forallb_forall _ _) blocking_phrases_attributable).
Qed.

(** Metadata takes precedence: when the text is blocked and the metadata
    dict of the response holds [violated_policy], or else [policy_name],
    the decision carries that value as it is, whatever the text says. *)
Theorem metadata_policy_wins (d md : gmap string json) (text : string) (v : json) :
  has_content d (JStr text) →
  Str.strip text ≠ "" →
  some_blocking_phrase text →
  d !! "metadata" = Some (JDict md) →
  md !! "violated_policy" = Some v ∨
  (md !! "violated_policy" = None ∧ md !! "policy_name" = Some v) →
  ∃ phrase,
    In phrase blocking_phrases ∧
    _is_message_blocked (JDict d) =
      Ok (true, JStr ("Blocking phrase detected: " +:+ phrase), v).
Proof.
  intros Hc Hstrip (phrase0 & Hin0 & Hc0) Hmeta Hmd.
  rewrite (is_message_blocked_text _ _ Hc).
  assert (String.eqb text "" = false) as ->.
  { apply String.eqb_neq. intros ->. by apply Hstrip. }
  assert (String.eqb (Str.strip text) "" = false) as -> by by apply String.eqb_neq.
  cbn [orb]. rewrite scan_blocking_phrases_find.
  destruct (find _ blocking_phrases) as [phrase|] eqn:Hfind.
  - apply find_some in Hfind as [Hin _]. exists phrase. split; [done|].
    rewrite policy_from_metadata_dict, Hmeta. simpl.
    destruct Hmd as [Hv | [Hv Hp]]; rewrite Hv; simpl; [done|]. by rewrite Hp.
  - pose proof (find_none _ _ Hfind phrase0 Hin0) as Hno. simpl in Hno. congruence.
Qed.

(** Content that is not a string: a falsy value ([None], [0], [False], an
    empty list or dict) is blocked as an empty response; a truthy one (a
    number, a list of parts, a dict) makes the classifier raise
    [AttributeError]. *)
Theorem content_not_text (d : gmap string json) (c : json) :
  has_content d c →
  (∀ text, c ≠ JStr text) →
  _is_message_blocked (JDict d) =
    if Py.truthy c then Raise AttributeError
    else Ok (true, JStr "Empty response from guardrails", JNull).
Proof.
  intros Hc Hnot. pose proof Hc as (m & rest & Hd & _).
  rewrite (is_message_blocked_unfold _ _ (messages_0_content_has _ _ Hc)).
  rewrite (truthy_dict_lookup _ _ _ Hd). cbn [negb].
  destruct (Py.truthy c); [|done]. cbn [negb].
  destruct c; try done. by destruct (Hnot s).
Qed.


(** ** Detectors, further *)

Module UserActionsFacts.
Import Re ReFacts UserActions.

Lemma search_mono (r : regex) (s1 s2 : string) :
  search r s1 = true → Str.contains s1 s2 = true → search r s2 = true.
Proof.
  rewrite !search_spec, contains_spec.
  intros (a & p & b & -> & Hm) (a' & b' & ->).
  exists (a' +:+ a), p, (b +:+ b'). split; [|done].
  by rewrite !app_assoc_string.
Qed.

Lemma search_any_true (s : string) (patterns : list regex) :
  search_any s patterns = true ↔ ∃ r, In r patterns ∧ search r s = true.
Proof.
  induction patterns as [|r rs IH].
  - simpl. split; [done|]. by intros (? & [] & _).
  - change (search_any s (r :: rs))
      with (if search r s then true else search_any s rs).
    destruct (search r s) eqn:Hr.
    + split; [|done]. intros _. exists r. split; [by left|done].
    + rewrite IH. split; intros (r' & Hin & Hs); exists r'.
      * split; [by right|done].
      * destruct Hin as [<-|Hin]; [congruence|done].
Qed.

Lemma search_any_mono (patterns : list regex) (s1 s2 : string) :
  search_any s1 patterns = true → Str.contains s1 s2 = true →
  search_any s2 patterns = true.
Proof.
  rewrite !search_any_true. intros (r & Hin & Hs) Hc.
  exists r. split; [done|]. by apply (search_mono r s1).
Qed.

Lemma matches_Lit (w p : string) : matches (Lit w) p ↔ p = w.
Proof.
  revert p. induction w as [|c w IH]; intros p; simpl.
  - split; [by inversion 1|intros ->; constructor].
  - split.
    + inversion 1 as [| | |? ? s1 s2 H1 H2| | | |]; subst.
      inversion H1; subst. apply IH in H2 as ->. done.
    + intros ->. apply (MCat _ _ (String c "") w); [constructor|by apply IH].
Qed.

(** Searching for a literal pattern is the substring test. *)
Lemma search_Lit (w s : string) : search (Lit w) s = Str.contains w s.
Proof.
  apply eq_true_iff_eq. rewrite search_spec, contains_spec. split.
  - intros (a & p & b & -> & ->%matches_Lit). eauto.
  - intros (a & b & ->). exists a, w, b. split; [done|]. by apply matches_Lit.
Qed.

Lemma user_message_text (ctx : gmap string json) (s : string) :
  ctx !! "user_message" = Some (JStr s) → s ≠ "" →
  user_message (Some ctx) = Ok (Some (JStr s)).
Proof.
  intros Hctx Hne. unfold user_message.
  rewrite (truthy_dict_lookup _ _ _ Hctx). simpl. rewrite Hctx.
  apply String.eqb_neq in Hne. simpl. by rewrite Hne.
Qed.

Lemma detect_patterns_text patterns (ctx : gmap string json) (s : string) :
  ctx !! "user_message" = Some (JStr s) → s ≠ "" →
  detect_patterns patterns (Some ctx) = Ok (search_any (Str.lower s) patterns).
Proof.
  intros Hctx Hne. unfold detect_patterns.
  by rewrite (user_message_text _ _ Hctx Hne).
Qed.

Lemma contains_nonempty (s1 s2 : string) :
  s1 ≠ "" → Str.contains s1 s2 = true → s2 ≠ "".
Proof.
  intros Hne (a & b & ->)%contains_spec Hs. 
  destruct a; [|by rewrite append_cons in Hs].
  rewrite append_nil in Hs. destruct s1; [done|]. by rewrite append_cons in Hs.
Qed.

Lemma lower_nonempty (s : string) : s ≠ "" → Str.lower s ≠ "".
Proof. by destruct s. Qed.

Lemma detect_patterns_mono patterns (ctx1 ctx2 : gmap string json) (s1 s2 : string) :
  ctx1 !! "user_message" = Some (JStr s1) →
  ctx2 !! "user_message" = Some (JStr s2) →
  Str.contains (Str.lower s1) (Str.lower s2) = true →
  detect_patterns patterns (Some ctx1) = Ok true →
  detect_patterns patterns (Some ctx2) = Ok true.
Proof.
  intros H1 H2 Hc Hd.
  assert (Hne1 : s1 ≠ "").
  { intros ->. unfold detect_patterns, user_message in Hd.
    rewrite (truthy_dict_lookup _ _ _ H1) in Hd. simpl in Hd. rewrite H1 in Hd.
    discriminate Hd. }
  assert (Hne2 : s2 ≠ "").
  { intros ->. by apply (contains_nonempty _ _ (lower_nonempty _ Hne1) Hc). }
  rewrite (detect_patterns_text _ _ _ H1 Hne1) in Hd.
  rewrite (detect_patterns_text _ _ _ H2 Hne2).
  injection Hd as Hd. f_equal. by apply (search_any_mono _ (Str.lower s1)).
Qed.

End UserActionsFacts.

(** A message flagged by the jailbreak detector or by the harmful-intent
    detector stays flagged when text is added around it or its case is
    changed: the patterns are searched anywhere in the lowered message. *)
Theorem flagged_user_message_stays_flagged (ctx1 ctx2 : gmap string json) (s1 s2 : string) :
  ctx1 !! "user_message" = Some (JStr s1) →
  ctx2 !! "user_message" = Some (JStr s2) →
  Str.contains (Str.lower s1) (Str.lower s2) = true →
  (UserActions.detect_jailbreak_attempt (Some ctx1) = Ok true →
   UserActions.detect_jailbreak_attempt (Some ctx2) = Ok true) ∧
  (UserActions.detect_harmful_intent (Some ctx1) = Ok true →
   UserActions.detect_harmful_intent (Some ctx2) = Ok true).
Proof.
  intros H1 H2 Hc.
  split; by apply (UserActionsFacts.detect_patterns_mono _ ctx1 ctx2 s1 s2).
Qed.

Module DetectorFacts.
Import Re ReFacts Actions UserActions UserActionsFacts.

Lemma search_any_skip (s : string) (before after : list regex) (r : regex) :
  search r s = false →
  search_any s (before ++ r :: after) = search_any s (before ++ after).
Proof.
  intros Hr. induction before as [|r' before IH].
  - change (search_any s ([] ++ r :: after))
      with (if search r s then true else search_any s after).
    by rewrite Hr.
  - change (search_any s ((r' :: before) ++ r :: after))
      with (if search r' s then true else search_any s (before ++ r :: after)).
    change (search_any s ((r' :: before) ++ after))
      with (if search r' s then true else search_any s (before ++ after)).
    by rewrite IH.
Qed.

Lemma user_message_nothing (context : option (gmap string json)) :
  no_user_message context → user_message context = Ok None.
Proof.
  destruct context as [ctx|]; [|done]. unfold no_user_message, user_message.
  intros Hfalsy. destruct (negb (Py.truthy (JDict ctx))); [done|].
  simpl. destruct (ctx !! "user_message") as [v|]; simpl in *; by rewrite ?Hfalsy.
Qed.

Lemma bot_message_nothing (context : option (gmap string json)) :
  no_bot_message context → bot_message_lower context = Ok None.
Proof.
  destruct context as [ctx|]; [|done]. unfold no_bot_message, bot_message_lower.
  intros [Hbot Hlast]. destruct (negb (Py.truthy (JDict ctx))); [done|].
  simpl.
  destruct (ctx !! "bot_message") as [v|]; simpl in *; rewrite ?Hbot; simpl;
    destruct (ctx !! "last_bot_message") as [v'|]; simpl in *; by rewrite ?Hlast.
Qed.

Lemma user_message_value (ctx : gmap string json) (v : json) :
  ctx !! "user_message" = Some v → Py.truthy v = true →
  user_message (Some ctx) = Ok (Some v).
Proof.
  intros Hctx Hv. unfold user_message.
  rewrite (truthy_dict_lookup _ _ _ Hctx). simpl. by rewrite Hctx, Hv.
Qed.

Lemma detect_patterns_unfold patterns context :
  detect_patterns patterns context =
    match user_message context with
    | Ok None => Ok false
    | Ok (Some (JStr s)) => Ok (search_any (Str.lower s) patterns)
    | Ok (Some _) => Raise AttributeError
    | Raise e => Raise e
    end.
Proof.
  unfold detect_patterns.
  by destruct (user_message context) as [[[| | |s| |]|]|e].
Qed.

Lemma Ok_inj {A} (a b : A) : Ok a = Ok b → a = b.
Proof. by intros [= ->]. Qed.

Lemma is_harmful_content_text (ctx : gmap string json) (s : string) :
  ctx !! "bot_message" = Some (JStr s) → s ≠ "" →
  is_harmful_content (Some ctx) = Ok (scan_keywords (Str.lower s) harmful_keywords).
Proof.
  intros Hctx Hne. unfold is_harmful_content.
  by rewrite (ActionsFacts.bot_message_lower_text _ _ Hctx Hne).
Qed.

Lemma scan_pii_keywords_true (message_lower : string) (keywords : list string) k :
  In k keywords → Str.contains k message_lower = true →
  scan_pii_keywords message_lower keywords = true.
Proof.
  induction keywords as [|k' ks IH]; simpl; [done|].
  intros [->|Hin] Hc; [by rewrite Hc|].
  destruct (Str.contains k' message_lower); [done|by apply IH].
Qed.

End DetectorFacts.

(** The jailbreak pattern written with capitals, [DAN\s+mode], never fires:
    it is searched in the lowered message, so the detector answers as if
    the pattern were not in its list. *)
Theorem jailbreak_dan_mode_never_fires :
  (∀ s, Re.search (UserActions.seq [Re.Lit "DAN"; UserActions.sp; Re.Lit "mode"])
          (Str.lower s) = false) ∧
  UserActions.jailbreak_patterns !! 6
    = Some (UserActions.seq [Re.Lit "DAN"; UserActions.sp; Re.Lit "mode"]) ∧
  ∀ context,
    UserActions.detect_jailbreak_attempt context
    = UserActions.detect_patterns (delete 6 UserActions.jailbreak_patterns) context.
Proof.
  assert (Hdead : ∀ s, Re.search
                    (UserActions.seq [Re.Lit "DAN"; UserActions.sp; Re.Lit "mode"])
                    (Str.lower s) = false).
  { intros s. apply ReFacts.search_starts_upper; [reflexivity|apply ReFacts.lower_no_upper]. }
  split; [exact Hdead|]. split; [reflexivity|].
  intros context. unfold UserActions.detect_jailbreak_attempt.
  rewrite !DetectorFacts.detect_patterns_unfold.
  destruct (UserActions.user_message context) as [[[| | |s| |]|]|e]; try reflexivity.
  f_equal.
  exact (DetectorFacts.search_any_skip (Str.lower s)
           (take 6 UserActions.jailbreak_patterns)
           (drop 7 UserActions.jailbreak_patterns) _ (Hdead s)).
Qed.

(** With no context, an empty context, or no truthy message under the key
    a detector reads, the detector answers false. *)
Theorem detectors_nothing_to_check (context : option (gmap string json)) :
  (no_user_message context →
   UserActions.detect_jailbreak_attempt context = Ok false ∧
   UserActions.detect_harmful_intent context = Ok false ∧
   ∀ re_search, UserActions.contains_pii re_search context = Ok false) ∧
  (no_bot_message context →
   Actions.is_harmful_content context = Ok false ∧
   Actions.violates_policy context = Ok false).
Proof.
  split.
  - intros H%DetectorFacts.user_message_nothing.
    unfold UserActions.detect_jailbreak_attempt, UserActions.detect_harmful_intent,
      UserActions.detect_patterns, UserActions.contains_pii.
    by rewrite H.
  - intros H%DetectorFacts.bot_message_nothing.
    unfold Actions.is_harmful_content, Actions.violates_policy. by rewrite H.
Qed.

(** A truthy message that is not a string (a number, a list of parts, a
    dict) makes the detectors raise instead of answering: [AttributeError]
    where the message is lowered, [TypeError] where it is handed to
    [re.search]. *)
Theorem detectors_raise_on_non_text (ctx : gmap string json) (v : json) :
  Py.truthy v = true →
  (∀ s, v ≠ JStr s) →
  (ctx !! "user_message" = Some v →
   UserActions.detect_jailbreak_attempt (Some ctx) = Raise AttributeError ∧
   UserActions.detect_harmful_intent (Some ctx) = Raise AttributeError ∧
   ∀ re_search, UserActions.contains_pii re_search (Some ctx) = Raise TypeError) ∧
  (ctx !! "bot_message" = Some v →
   Actions.is_harmful_content (Some ctx) = Raise AttributeError ∧
   Actions.violates_policy (Some ctx) = Raise AttributeError).
Proof.
  intros Hv Hnot. split.
  - intros Hctx.
    unfold UserActions.detect_jailbreak_attempt, UserActions.detect_harmful_intent,
      UserActions.detect_patterns, UserActions.contains_pii.
    rewrite (DetectorFacts.user_message_value _ _ Hctx Hv).
    destruct v; try done. by destruct (Hnot s).
  - intros Hctx.
    assert (Actions.bot_message_lower (Some ctx) = Raise AttributeError) as Hbot.
    { unfold Actions.bot_message_lower.
      rewrite (truthy_dict_lookup _ _ _ Hctx). simpl. rewrite Hctx, Hv. simpl.
      rewrite Hv. simpl. destruct v; try done. by destruct (Hnot s). }
    unfold Actions.is_harmful_content, Actions.violates_policy. by rewrite Hbot.
Qed.

(** Whatever the regular expressions find, a user message that contains
    one of the PII keywords, in any case, is flagged. *)
Theorem pii_keyword_flags (re_search : string → string → bool)
    (ctx : gmap string json) (s keyword : string) :
  ctx !! "user_message" = Some (JStr s) →
  In keyword UserActions.pii_keywords →
  Str.contains keyword (Str.lower s) = true →
  UserActions.contains_pii re_search (Some ctx) = Ok true.
Proof.
  intros Hctx Hin Hc.
  assert (Hne : s ≠ "").
  { intros ->. apply contains_spec in Hc as (a & b & Hs). simpl in Hs.
    symmetry in Hs. apply ReFacts.append_eq_nil in Hs as [_ [-> _]%ReFacts.append_eq_nil].
    revert Hin. unfold UserActions.pii_keywords. simpl.
    intros H. repeat (destruct H as [H|H]; [discriminate H|]). exact H. }
  unfold UserActions.contains_pii.
  rewrite (UserActionsFacts.user_message_text _ _ Hctx Hne).
  change (Ok (Some (JStr s)) ≫= _)
    with (if UserActions.scan_pii_patterns re_search s UserActions.pii_patterns
          then Ok true
          else Ok (A:=bool) (UserActions.scan_pii_keywords (Str.lower s)
                               UserActions.pii_keywords)).
  destruct (UserActions.scan_pii_patterns _ _ _); [done|].
  by rewrite (DetectorFacts.scan_pii_keywords_true _ _ keyword Hin Hc).
Qed.

(** A bot message flagged by the harmful-content detector stays flagged
    when text is added around it or its case is changed. *)
Theorem flagged_bot_message_stays_flagged (ctx1 ctx2 : gmap string json) (s1 s2 : string) :
  ctx1 !! "bot_message" = Some (JStr s1) →
  ctx2 !! "bot_message" = Some (JStr s2) →
  s1 ≠ "" →
  Str.contains (Str.lower s1) (Str.lower s2) = true →
  Actions.is_harmful_content (Some ctx1) = Ok true →
  Actions.is_harmful_content (Some ctx2) = Ok true.
Proof.
  intros H1 H2 Hne1 Hc.
  assert (Hne2 : s2 ≠ "").
  { intros ->. by apply (UserActionsFacts.contains_nonempty _ _
                           (UserActionsFacts.lower_nonempty _ Hne1) Hc). }
  rewrite (DetectorFacts.is_harmful_content_text _ _ H1 Hne1),
    (DetectorFacts.is_harmful_content_text _ _ H2 Hne2).
  intros Hflag. apply DetectorFacts.Ok_inj in Hflag. f_equal.
  apply ActionsFacts.scan_keywords_true in Hflag as (k & p & Hk & Hp & Hkc).
  apply ActionsFacts.scan_keywords_true. exists k, p. split; [done|]. split; [done|].
  by apply (contains_trans p (Str.lower s1)).
Qed.

Lemma bot_message_lower_precedence (ctx : gmap string json) (v : json) :
  (ctx !! "bot_message" = Some v → Py.truthy v = true →
   Actions.bot_message_lower (Some ctx)
   = Actions.bot_message_lower (Some {[ "bot_message" := v ]})) ∧
  (Py.truthy (default (JStr "") (ctx !! "bot_message")) = false →
   ctx !! "last_bot_message" = Some v →
   Actions.bot_message_lower (Some ctx)
   = Actions.bot_message_lower (Some {[ "bot_message" := v ]})).
Proof.
  split.
  - intros Hctx Hv. unfold Actions.bot_message_lower.
    rewrite (truthy_dict_lookup _ _ _ Hctx).
    rewrite (truthy_dict_lookup {[ "bot_message" := v ]} "bot_message" v)
      by apply lookup_singleton_eq.
    simpl. rewrite Hctx, lookup_singleton_eq. simpl. by rewrite Hv.
  - intros Hbot Hlast. unfold Actions.bot_message_lower.
    rewrite (truthy_dict_lookup _ _ _ Hlast).
    rewrite (truthy_dict_lookup {[ "bot_message" := v ]} "bot_message" v)
      by apply lookup_singleton_eq.
    simpl. rewrite Hlast, lookup_singleton_eq.
    rewrite lookup_singleton_ne by done.
    destruct (ctx !! "bot_message") as [b|]; simpl in *; rewrite ?Hbot; simpl;
      destruct (Py.truthy v) eqn:Hv; simpl; by rewrite ?Hv.
Qed.

(** The harmful-content detector reads [bot_message], and
    [last_bot_message] only when [bot_message] is missing or falsy: in
    either case it answers as it does on a context that holds the message
    it read under [bot_message] alone. *)
Theorem bot_message_precedence (ctx : gmap string json) (v : json) :
  (ctx !! "bot_message" = Some v → Py.truthy v = true →
   Actions.is_harmful_content (Some ctx)
   = Actions.is_harmful_content (Some {[ "bot_message" := v ]})) ∧
  (Py.truthy (default (JStr "") (ctx !! "bot_message")) = false →
   ctx !! "last_bot_message" = Some v →
   Actions.is_harmful_content (Some ctx)
   = Actions.is_harmful_content (Some {[ "bot_message" := v ]})).
Proof.
  destruct (bot_message_lower_precedence ctx v) as [Hfirst Hlast].
  unfold Actions.is_harmful_content. split.
  - intros Hctx Hv. by rewrite (Hfirst Hctx Hv).
  - intros Hbot Hl. by rewrite (Hlast Hbot Hl).
Qed.

(** ** Result log *)

Lemma substring_0_prefix (n : nat) (s : string) :
  String.prefix (String.substring 0 n s) s = true.
Proof.
  revert s. induction n as [|n IH]; intros [|c s]; simpl; try done.
  destruct (ascii_dec c c); [apply IH|done].
Qed.

Lemma substring_0_length (n : nat) (s : string) :
  String.length (String.substring 0 n s) = Nat.min n (String.length s).
Proof.
  revert s. induction n as [|n IH]; intros [|c s]; simpl; try done.
  by rewrite IH.
Qed.

(** The result handed to the logging collaborator previews a text message
    by its first 100 characters at most, carries the policy only when it
    is truthy, and the call changes nothing else. *)
Theorem log_result_previews_100 (status reason m : string) (policy_name : json) (w : World) :
  m ≠ "" →
  ∃ p, _log_guardrail_result status reason (JStr m) JNull policy_name w =
         (Ok (), log_appended w
                   (LogData (guardrail_name w) status reason
                      (if Py.truthy policy_name then Some policy_name else None)
                      (Some (JStr p)) None)) ∧
       String.prefix p m = true ∧
       String.length p = Nat.min 100 (String.length m).
Proof.
  intros Hne. exists (Str.prefix100 m). split; [|split].
  - unfold _log_guardrail_result, preview,
      add_standard_logging_guardrail_information_to_request_data.
    unfold_M. apply String.eqb_neq in Hne. simpl. by rewrite Hne.
  - apply substring_0_prefix.
  - apply substring_0_length.
Qed.


(** ** Concrete runs of the further properties *)

Lemma resolver_caches_first_success_witness :
  let w1 := with_cache (after_request fresh_world GetConfigs)
              (JList [JDict {[ "id" := JStr "default" ]}]) in
  http_timeout (issued fresh_world) GetConfigs = Ok (JList [JDict {[ "id" := JStr "default" ]}]) ∧
  _get_config_id http_timeout fresh_world = (Ok (JStr "default"), w1) ∧
  _get_config_id http_timeout w1 = (Ok (JStr "default"), w1).
Proof.
  split; [reflexivity|].
  exact (resolver_caches_first_success http_timeout fresh_world
           {[ "id" := JStr "default" ]} [] (JStr "default")
           eq_refl eq_refl eq_refl eq_refl eq_refl).
Defined.

Lemma resolver_missing_id_witness :
  let w1 := with_cache (after_request fresh_world GetConfigs)
              (JList [JDict {[ "name" := JStr "default" ]}]) in
  Py.truthy (default JNull (({[ "name" := JStr "default" ]} : gmap string json) !! "id")) = false ∧
  _get_config_id http_no_id fresh_world = (Raise config_id_not_found, w1) ∧
  _get_config_id http_no_id w1 = (Raise config_id_not_found, w1).
Proof.
  split; [reflexivity|].
  exact (resolver_missing_id http_no_id fresh_world {[ "name" := JStr "default" ]} []
           eq_refl eq_refl eq_refl eq_refl).
Defined.

Lemma pre_call_blocked_raises_signal_witness :
  let w := answered_world in
  let w1 := (_check_message_with_api http_refuses [api_message "user" (JStr "hi")] w).2 in
  _is_message_blocked (reply "I cannot assist with that")
    = Ok (true, JStr "Blocking phrase detected: I cannot assist with that",
          JStr "Content Policy Violation") ∧
  async_pre_call_hook http_refuses always proceed show_value show_exn w =
    (Raise (GuardrailRaisedException
              "Your message was blocked by content safety policies. Policy violated: Content Policy Violation"
              "nemo"),
     log_appended w1
       (LogData "nemo" "blocked"
          "Message blocked by NeMo Guardrails: Blocking phrase detected: I cannot assist with that"
          (Some (JStr "Content Policy Violation")) (Some (JStr "hi")) None)).
Proof.
  intros w w1. split; [reflexivity|].
  exact (pre_call_blocked_raises_signal http_refuses always proceed show_value show_exn
           w w1 (JStr "hi") (JStr "hi") (reply "I cannot assist with that") _ _
           eq_refl eq_refl eq_refl eq_refl eq_refl eq_refl eq_refl).
Defined.

Lemma pre_call_passed_allows_witness :
  let w := answered_world in
  let w1 := (_check_message_with_api http_greets [api_message "user" (JStr "hi")] w).2 in
  _is_message_blocked (reply "Hello, how can I help?") = Ok (false, JNull, JNull) ∧
  async_pre_call_hook http_greets always proceed show_value show_exn w =
    (Ok (), header_appended
              (log_appended w1
                 (LogData "nemo" "passed" "Message passed NeMo Guardrails checks"
                    None (Some (JStr "hi")) None))).
Proof.
  intros w w1. split; [reflexivity|].
  exact (pre_call_passed_allows http_greets always proceed show_value show_exn
           w w1 (JStr "hi") (JStr "hi") (reply "Hello, how can I help?") _ _
           eq_refl eq_refl eq_refl eq_refl eq_refl eq_refl eq_refl).
Defined.

Lemma pre_call_classification_error_fails_open_witness :
  let w := answered_world in
  let w1 := (_check_message_with_api http_empty [api_message "user" (JStr "hi")] w).2 in
  _is_message_blocked (JDict ∅) = Raise KeyError ∧
  async_pre_call_hook http_empty always proceed show_value show_exn w =
    (Ok (), log_appended w1 (error_entry w "Error: ")).
Proof.
  intros w w1. split; [reflexivity|].
  exact (pre_call_classification_error_fails_open http_empty always proceed show_value
           show_exn w w1 (JStr "hi") (JStr "hi") (Ok (JDict ∅)) KeyError
           eq_refl eq_refl eq_refl eq_refl eq_refl eq_refl eq_refl eq_refl).
Defined.

Lemma http_timeout_raises_requests_only : raises_requests_only http_timeout.
Proof.
  intros history [|c m] e H; simpl in H; [discriminate H|].
  injection H as <-. eauto.
Defined.

Lemma pre_call_outcomes_witness :
  let hook := async_pre_call_hook http_timeout always proceed show_value show_exn in
  let w := asking_world in
  raises_requests_only http_timeout ∧
  (hook w = (Ok (), w) ∨
   (∃ w1 entry, same_request_state w w1 ∧ log_status entry = "error" ∧
      hook w = (Ok (), log_appended w1 entry)) ∨
   (∃ w1 entry, same_request_state w w1 ∧ log_status entry = "passed" ∧
      hook w = (Ok (), header_appended (log_appended w1 entry))) ∨
   (∃ w1 entry message, same_request_state w w1 ∧ log_status entry = "blocked" ∧
      hook w = (Raise (GuardrailRaisedException message (guardrail_name w)),
                log_appended w1 entry))).
Proof.
  intros hook w. split; [exact http_timeout_raises_requests_only|].
  exact (pre_call_outcomes http_timeout always proceed show_value show_exn w
           http_timeout_raises_requests_only).
Defined.

Lemma post_call_passed_unchanged_witness :
  let w := answered_world in
  let w1 := (_check_message_with_api http_greets
               [api_message "assistant" (JStr "some harmful text")] w).2 in
  _is_message_blocked (reply "Hello, how can I help?") = Ok (false, JNull, JNull) ∧
  async_post_call_success_hook http_greets always proceed show_value show_exn 0 w =
    (Ok 0, header_appended
             (log_appended w1
                (LogData "nemo" "passed" "LLM response passed NeMo Guardrails checks"
                   None None (Some (JStr "some harmful text"))))) ∧
  heap w1 = heap w.
Proof.
  intros w w1. split; [reflexivity|].
  exact (post_call_passed_unchanged http_greets always proceed show_value show_exn
           w w1 0 (JStr "some harmful text") (reply "Hello, how can I help?") _ _
           eq_refl eq_refl eq_refl eq_refl eq_refl eq_refl).
Defined.

Lemma post_call_classification_error_fails_open_witness :
  let w := answered_world in
  let w1 := (_check_message_with_api http_timeout
               [api_message "assistant" (JStr "some harmful text")] w).2 in
  async_post_call_success_hook http_timeout always proceed show_value show_exn 0 w =
    (Ok 0, log_appended w1 (error_entry w "Error: timed out")) ∧
  heap w1 = heap w.
Proof.
  intros w w1.
  exact (post_call_classification_error_fails_open http_timeout always proceed
           show_value show_exn w w1 0 (JStr "some harmful text")
           (Raise (Requests Timeout "timed out")) (Requests Timeout "timed out")
           eq_refl eq_refl eq_refl eq_refl eq_refl eq_refl).
Defined.

Lemma post_call_no_content_no_effects_witness :
  Py.truthy (response_content (heap silent_world !! 0)) = false ∧
  async_post_call_success_hook http_refuses always proceed show_value show_exn 0 silent_world
  = (Ok 0, silent_world).
Proof.
  split; [reflexivity|].
  exact (post_call_no_content_no_effects http_refuses always proceed show_value show_exn
           silent_world 0 eq_refl).
Defined.

Lemma decision_ignores_case_witness :
  Str.lower "I CANNOT assist with THAT" = Str.lower "i cannot assist with that" ∧
  _is_message_blocked (JDict (reply_map "I CANNOT assist with THAT"))
  = _is_message_blocked (JDict (reply_map "i cannot assist with that")).
Proof.
  split; [reflexivity|].
  assert (H1 : has_content (reply_map "I CANNOT assist with THAT")
                 (JStr "I CANNOT assist with THAT")).
  { eexists _, _. split; reflexivity. }
  assert (H2 : has_content (reply_map "i cannot assist with that")
                 (JStr "i cannot assist with that")).
  { eexists _, _. split; reflexivity. }
  exact (decision_ignores_case _ _ _ _ H1 H2 eq_refl eq_refl).
Defined.

Lemma phrase_anywhere_blocks_witness :
  let text := "That joke was not INAPPROPRIATE at all." in
  let d := reply_map text in
  some_blocking_phrase text ∧
  ∃ before phrase after,
    blocking_phrases = before ++ phrase :: after ∧
    Forall (λ earlier, Str.contains (Str.lower earlier) (Str.lower text) = false) before ∧
    Str.contains (Str.lower phrase) (Str.lower text) = true ∧
    _is_message_blocked (JDict d) =
      (policy ← _extract_policy_name (JDict d) text;
       Ok (true, JStr ("Blocking phrase detected: " +:+ phrase), policy)) ∧
    (no_policy_metadata d →
     ∃ policy,
       _extract_policy_name (JDict d) text = Ok (JStr policy) ∧
       (In policy ["Jailbreak Prevention"; "Harmful Content Prevention";
                   "Content Safety Policy"; "PII Protection";
                   "Safety Bypass Prevention"; "Sexual Content Prevention";
                   "Self-Harm Prevention"; "Violence Prevention";
                   "Illegal Activity Prevention"; "Instruction Bypass Prevention";
                   "Sensitive Information Protection"; "Toxicity Prevention";
                   "Malicious Code Prevention"; "Respectful Interaction Policy";
                   "Medical Advice Policy prevention";
                   "Legal Advice Policy Prevention"] ∨
        policy = "Content Policy Violation")).
Proof.
  intros text d.
  assert (H1 : has_content d (JStr text)).
  { eexists _, _. split; reflexivity. }
  assert (H2 : some_blocking_phrase text).
  { exists "inappropriate". split; [|reflexivity].
    unfold blocking_phrases. simpl. tauto. }
  split; [exact H2|].
  exact (phrase_anywhere_blocks d text H1 H2).
Defined.

Lemma metadata_policy_wins_witness :
  let text := "I cannot assist with that" in
  let md : gmap string json := {[ "policy_name" := JStr "Custom Rail" ]} in
  let d : gmap string json :=
    {[ "messages" := JList [JDict {[ "content" := JStr text ]}];
       "metadata" := JDict md ]} in
  some_blocking_phrase text ∧
  ∃ phrase,
    In phrase blocking_phrases ∧
    _is_message_blocked (JDict d) =
      Ok (true, JStr ("Blocking phrase detected: " +:+ phrase), JStr "Custom Rail").
Proof.
  intros text md d.
  assert (H1 : has_content d (JStr text)).
  { eexists _, _. split; reflexivity. }
  assert (H2 : Str.strip text ≠ "") by (vm_compute; discriminate).
  assert (H3 : some_blocking_phrase text).
  { exists "I cannot assist with that". split; [|reflexivity].
    unfold blocking_phrases. simpl. tauto. }
  split; [exact H3|].
  exact (metadata_policy_wins d md text (JStr "Custom Rail") H1 H2 H3 eq_refl
           (or_intror (conj eq_refl eq_refl))).
Defined.

Lemma content_not_text_witness :
  has_content reply_in_parts
    (JList [JDict {[ "type" := JStr "text"; "text" := JStr "hello" ]}]) ∧
  _is_message_blocked (JDict reply_in_parts) = Raise AttributeError.
Proof.
  assert (H1 : has_content reply_in_parts
                 (JList [JDict {[ "type" := JStr "text"; "text" := JStr "hello" ]}])).
  { eexists _, _. split; reflexivity. }
  split; [exact H1|].
  refine (content_not_text reply_in_parts _ H1 _). intros text H. discriminate H.
Defined.

Lemma log_result_previews_100_witness :
  ∃ p, _log_guardrail_result "passed" "checked" (JStr "hi") JNull JNull fresh_world =
         (Ok (), log_appended fresh_world
                   (LogData "nemo" "passed" "checked" None (Some (JStr p)) None)) ∧
       String.prefix p "hi" = true ∧
       String.length p = Nat.min 100 (String.length "hi").
Proof.
  refine (log_result_previews_100 "passed" "checked" "hi" JNull fresh_world _).
  discriminate.
Defined.

Lemma flagged_user_message_stays_flagged_witness :
  Str.contains (Str.lower "how to hack") (Str.lower "Tell me HOW TO HACK a bank") = true ∧
  UserActions.detect_harmful_intent (Some (user "how to hack")) = Ok true ∧
  UserActions.detect_harmful_intent (Some (user "Tell me HOW TO HACK a bank")) = Ok true.
Proof.
  split; [reflexivity|]. split; [reflexivity|].
  exact (proj2 (flagged_user_message_stays_flagged (user "how to hack")
                  (user "Tell me HOW TO HACK a bank") _ _ eq_refl eq_refl eq_refl)
           eq_refl).
Defined.

Lemma detectors_nothing_to_check_witness :
  no_user_message (Some (bot "hello")) ∧
  UserActions.detect_jailbreak_attempt (Some (bot "hello")) = Ok false ∧
  no_bot_message (Some (user "hello")) ∧
  Actions.is_harmful_content (Some (user "hello")) = Ok false.
Proof.
  split; [reflexivity|]. split.
  - exact (proj1 (proj1 (detectors_nothing_to_check (Some (bot "hello"))) eq_refl)).
  - split; [split; reflexivity|].
    exact (proj1 (proj2 (detectors_nothing_to_check (Some (user "hello")))
                    (conj eq_refl eq_refl))).
Defined.

Lemma detectors_raise_on_non_text_witness :
  Py.truthy (JNum 7) = true ∧
  UserActions.detect_jailbreak_attempt (Some {[ "user_message" := JNum 7 ]})
  = Raise AttributeError ∧
  Actions.is_harmful_content (Some {[ "bot_message" := JNum 7 ]}) = Raise AttributeError.
Proof.
  assert (Hnot : ∀ s, JNum 7 ≠ JStr s) by (intros s H; discriminate H).
  split; [reflexivity|]. split.
  - exact (proj1 (proj1 (detectors_raise_on_non_text {[ "user_message" := JNum 7 ]}
                           (JNum 7) eq_refl Hnot) eq_refl)).
  - exact (proj1 (proj2 (detectors_raise_on_non_text {[ "bot_message" := JNum 7 ]}
                           (JNum 7) eq_refl Hnot) eq_refl)).
Defined.

Lemma pii_keyword_flags_witness :
  Str.contains "cvv" (Str.lower "My CVV is on the back") = true ∧
  UserActions.contains_pii (λ _ _, false) (Some (user "My CVV is on the back")) = Ok true.
Proof.
  split; [reflexivity|].
  refine (pii_keyword_flags (λ _ _, false) (user "My CVV is on the back") _ "cvv"
            eq_refl _ eq_refl).
  unfold UserActions.pii_keywords. simpl. tauto.
Defined.

Lemma flagged_bot_message_stays_flagged_witness :
  Str.contains (Str.lower "how to kill") (Str.lower "Here is HOW TO KILL a process") = true ∧
  Actions.is_harmful_content (Some (bot "how to kill")) = Ok true ∧
  Actions.is_harmful_content (Some (bot "Here is HOW TO KILL a process")) = Ok true.
Proof.
  split; [reflexivity|]. split; [reflexivity|].
  refine (flagged_bot_message_stays_flagged (bot "how to kill")
            (bot "Here is HOW TO KILL a process") _ _ eq_refl eq_refl _ eq_refl eq_refl).
  discriminate.
Defined.

Lemma bot_message_precedence_witness :
  let ctx : gmap string json :=
    {[ "bot_message" := JStr ""; "last_bot_message" := JStr "how to kill" ]} in
  Py.truthy (default (JStr "") (ctx !! "bot_message")) = false ∧
  Actions.is_harmful_content (Some ctx)
  = Actions.is_harmful_content (Some {[ "bot_message" := JStr "how to kill" ]}).
Proof.
  intros ctx. split; [reflexivity|].
  exact (proj2 (bot_message_precedence ctx (JStr "how to kill")) eq_refl eq_refl).
Defined.

